(** * jf-http-request: a shallow embedding of src/index.js

    The module [Js] models the JavaScript values the options record is made
    of, [Classifier] the function [isOk], [Normalizer] the functions
    [checkUrl], [checkHeaders] and the entry point [jfHttpRequest],
    [Cache] the process-wide response cache ([addToCache], [fromCache],
    [purgeCache]) over an explicit heap of objects, [Executor] the
    function [doRequest], and [Delivery] the adapters [typeCallback],
    [typeEvents] and [typePromise]. *)

From Stdlib Require Import ZArith QArith String Ascii Bool List.
From stdpp Require Import base gmap strings list pretty.

Local Open Scope Z_scope.
Local Set Warnings "-register-all".

(* ------------------------------------------------------------------ *)
(** ** JavaScript values *)

Module Js.

(** Plain JavaScript values as found in an options record. Objects are
    association lists of own properties in insertion order. A function
    carries its [prototype] property when that property is an object. *)
Inductive jsval :=
| JUndef
| JNull
| JBool (b : bool)
| JNum (n : Z)
| JStr (s : string)
| JFun (proto : option (list (string * jsval)))
| JObj (props : list (string * jsval)).

Abbreviation jsobj := (list (string * jsval)).

(** JavaScript truthiness (numbers are integers here: no NaN). *)
Definition truthy (v : jsval) : bool :=
  match v with
  | JUndef | JNull => false
  | JBool b => b
  | JNum n => negb (Z.eqb n 0)
  | JStr s => negb (String.eqb s "")
  | JFun _ | JObj _ => true
  end.

(** [typeof v]. *)
Definition typeof (v : jsval) : string :=
  match v with
  | JUndef => "undefined"
  | JNull => "object"
  | JBool _ => "boolean"
  | JNum _ => "number"
  | JStr _ => "string"
  | JFun _ => "function"
  | JObj _ => "object"
  end.

(** [String(v)], the conversion used by [+] on strings. *)
Definition to_string (v : jsval) : string :=
  match v with
  | JUndef => "undefined"
  | JNull => "null"
  | JBool true => "true"
  | JBool false => "false"
  | JNum n => pretty n
  | JStr s => s
  | JFun _ => "function"
  | JObj _ => "[object Object]"
  end.

(** [o[k]]: the value of an own property, [undefined] when absent. *)
Fixpoint obj_get (o : jsobj) (k : string) : jsval :=
  match o with
  | [] => JUndef
  | (k', v) :: o' => if String.eqb k k' then v else obj_get o' k
  end.

(** [k in o]. *)
Definition obj_has (o : jsobj) (k : string) : bool :=
  existsb (fun kv => String.eqb k kv.1) o.

(** [o[k] = v]: overwrite in place, or append a new property. *)
Fixpoint obj_set (o : jsobj) (k : string) (v : jsval) : jsobj :=
  match o with
  | [] => [(k, v)]
  | (k', v') :: o' =>
      if String.eqb k k' then (k', v) :: o' else (k', v') :: obj_set o' k v
  end.

(** [delete o[k]]. *)
Definition obj_delete (o : jsobj) (k : string) : jsobj :=
  List.filter (fun kv => negb (String.eqb k kv.1)) o.

(** [Object.assign(target, src)]: copies the own properties of [src] in order. *)
Definition obj_assign (target src : jsobj) : jsobj :=
  fold_left (fun t kv => obj_set t kv.1 kv.2) src target.

(** The own properties of a value seen as an object ([options.x] on a
    primitive reads [undefined]). *)
Definition as_object (v : jsval) : jsobj :=
  match v with
  | JObj o => o
  | _ => []
  end.

(** [s.split(';').shift()]: the text before the first [;]. *)
Fixpoint before_semicolon (s : string) : string :=
  match s with
  | EmptyString => EmptyString
  | String c s' => if Ascii.eqb c ";" then EmptyString else String c (before_semicolon s')
  end.

(** ASCII lower case, used for case-insensitive header names. *)
Definition lower_ascii (c : ascii) : ascii :=
  let n := Ascii.nat_of_ascii c in
  if (Nat.leb 65 n && Nat.leb n 90)%bool then Ascii.ascii_of_nat (n + 32) else c.

Fixpoint lower (s : string) : string :=
  match s with
  | EmptyString => EmptyString
  | String c s' => String (lower_ascii c) (lower s')
  end.

End Js.

(* ------------------------------------------------------------------ *)
(** ** Outcome classifier: [isOk] *)

Module Classifier.

(** The part of a response [isOk] reads: [statusCode], absent when
    [undefined] or [null]. *)
Record response := { statusCode : option Z }.

(** [isOk(response)]: [const _code = (response && response.statusCode) || 0;
    return (_code >= 200 && _code < 300) || _code === 304;] *)
Definition isOk (response : option response) : bool :=
  let code :=
    match response with
    | None => 0
    | Some r => match statusCode r with
                | Some c => if Z.eqb c 0 then 0 else c
                | None => 0
                end
    end in
  ((200 <=? code) && (code <? 300)) || (code =? 304).

Inductive kind := request_ok | request_fail.

(** The label [typeCallback] and [typeEvents] attach to a response. *)
Definition classify (response : option response) : kind :=
  if isOk response then request_ok else request_fail.

End Classifier.

(* ------------------------------------------------------------------ *)
(** ** Option normalizer and entry point *)

Module Normalizer.
Import Js.

(** Model of the external header-mapping utility [jf-http-headers]
    ([new jfHttpHeaders(obj)], [get], [set], [.headers]): an object of
    header values whose names compare case-insensitively. *)
Definition hdrs_of (v : jsval) : jsobj := as_object v.

Fixpoint hdr_get (h : jsobj) (name : string) : jsval :=
  match h with
  | [] => JUndef
  | (k, v) :: h' => if String.eqb (lower k) (lower name) then v else hdr_get h' name
  end.

Fixpoint hdr_set (h : jsobj) (name : string) (v : jsval) : jsobj :=
  match h with
  | [] => [(name, v)]
  | (k, v') :: h' =>
      if String.eqb (lower k) (lower name) then (name, v) :: h'
      else (k, v') :: hdr_set h' name v
  end.

(** [checkHeaders(options)]; [None] when it throws (a truthy
    Content-Type that is not a string has no [split]). *)
Definition checkHeaders (options : jsobj) : option jsobj :=
  if obj_has options "headers" then
    let h0 := hdrs_of (obj_get options "headers") in
    let h1 :=
      if (negb (truthy (hdr_get h0 "Content-Type")) && obj_has options "body")%bool then
        let body := obj_get options "body" in
        if String.eqb (typeof body) "string" then
          hdr_set h0 "Content-Type"
            (JStr (if bool_decide (String.get 0 (to_string body) = Some "<"%char)
                   then "text/html; charset=utf-8"
                   else "text/plain; charset=utf-8"))
        else if String.eqb (typeof body) "object" then
          hdr_set h0 "Content-Type" (JStr "application/json; charset=utf-8")
        else h0
      else h0 in
    let h2 :=
      if negb (truthy (hdr_get h1 "Accept")) then
        let contentType := hdr_get h1 "Content-Type" in
        if truthy contentType then
          match contentType with
          | JStr ct => Some (hdr_set h1 "Accept" (JStr (before_semicolon ct)))
          | _ => None
          end
        else Some h1
      else Some h1 in
    match h2 with
    | Some h => Some (obj_set options "headers" (JObj h))
    | None => None
    end
  else Some options.

Section WithUrlParse.

(** Node's [url.parse], an external collaborator: the parsed URL as an
    object of own properties ([protocol], [hostname], [pathname], [path],
    [query], ...). *)
Variable urlParse : string -> jsobj.

(** The first block of [checkUrl]: URL resolution. *)
Definition checkUrl_url (options : jsobj) : jsobj :=
  match obj_get options "url" with
  | JStr url =>
      let u0 := urlParse url in
      let '(u1, o1) :=
        if truthy (obj_get options "pathname") then
          (obj_set u0 "path" (obj_get options "pathname"), obj_delete options "pathname")
        else if truthy (obj_get u0 "query") then
          (obj_set u0 "path"
             (JStr (to_string (obj_get u0 "path") ++ "?" ++ to_string (obj_get u0 "query"))),
           options)
        else (u0, options) in
      obj_delete (obj_assign o1 u1) "url"
  | _ => options
  end.

(** The second block of [checkUrl]: [host] as an alias of [hostname]. *)
Definition checkUrl_host (options : jsobj) : jsobj :=
  if truthy (obj_get options "host") then
    let o := if negb (truthy (obj_get options "hostname"))
             then obj_set options "hostname" (obj_get options "host")
             else options in
    obj_delete o "host"
  else options.

(** [checkUrl(options)]; [None] when it throws [TypeError('Wrong hostname')]. *)
Definition checkUrl (options : jsobj) : option jsobj :=
  let o := checkUrl_host (checkUrl_url options) in
  if truthy (obj_get o "hostname") then Some o else None.

(** [isPromise(Class)]. *)
Definition isPromise (Class : jsval) : bool :=
  match Class with
  | JFun (Some proto) =>
      String.eqb (typeof (obj_get proto "catch")) "function" &&
      String.eqb (typeof (obj_get proto "then")) "function"
  | _ => false
  end.

Inductive error := TypeError (message : string).

(** The delivery adapter that receives the normalized options. *)
Inductive delivery :=
| typeCallback (cb : jsval)
| typeEvents
| typePromise (Promise : jsval).

(** What a call of the entry point does before any I/O: it throws, or it
    hands the normalized options to one delivery adapter (which calls
    [doRequest]). *)
Inductive outcome :=
| Throws (e : error)
| Dispatch (d : delivery) (options : jsobj).

(** [options = {url : options}] for a string, the object otherwise. *)
Definition options_of (options : jsval) : jsobj :=
  match options with
  | JStr s => [("url", JStr s)]
  | _ => as_object options
  end.

(** [jfHttpRequest(options)]. *)
Definition jfHttpRequest (options : jsval) : outcome :=
  if truthy options then
    match checkUrl (options_of options) with
    | None => Throws (TypeError "Wrong hostname")
    | Some o1 =>
        match checkHeaders o1 with
        | None => Throws (TypeError "_contentType.split is not a function")
        | Some o2 =>
            let type := obj_get o2 "requestType" in
            let o3 := obj_delete o2 "requestType" in
            if String.eqb (typeof type) "function" then
              if isPromise type then Dispatch (typePromise type) o3
              else Dispatch (typeCallback type) o3
            else Dispatch typeEvents o3
        end
    end
  else Throws (TypeError "Wrong options").

(** The hostname left after URL parsing and host aliasing. *)
Definition resolved_hostname (options : jsval) : jsval :=
  obj_get (checkUrl_host (checkUrl_url (options_of options))) "hostname".

End WithUrlParse.

(** A model of Node's [url.parse] on URLs of the form
    [scheme://host[/path][?query]] (and on relative references), used to
    run the normalizer on concrete inputs. *)
Fixpoint span (stop : ascii -> bool) (s : string) : string * string :=
  match s with
  | EmptyString => (EmptyString, EmptyString)
  | String c s' =>
      if stop c then (EmptyString, s)
      else let '(a, b) := span stop s' in (String c a, b)
  end.

Definition url_parts (rest : string) : jsval * jsval * string :=
  let '(pn, q) := span (fun c => Ascii.eqb c "?") rest in
  match q with
  | String _ qs => (JStr q, JStr qs, pn)
  | EmptyString => (JNull, JNull, pn)
  end.

Definition url_parse_model (url : string) : jsobj :=
  let '(scheme, rest) := span (fun c => Ascii.eqb c ":") url in
  match rest with
  | String c1 (String c2 (String c3 after)) =>
      if (Ascii.eqb c1 ":" && Ascii.eqb c2 "/" && Ascii.eqb c3 "/")%bool then
        let '(host, rest2) := span (fun c => Ascii.eqb c "/" || Ascii.eqb c "?") after in
        let '(search, query, pn) := url_parts rest2 in
        let pathname := if String.eqb pn "" then "/" else pn in
        [("protocol", JStr (scheme ++ ":")); ("slashes", JBool true); ("auth", JNull);
         ("host", JStr (lower host)); ("port", JNull); ("hostname", JStr (lower host));
         ("hash", JNull); ("search", search); ("query", query);
         ("pathname", JStr pathname);
         ("path", JStr (pathname ++ to_string (if truthy search then search else JStr "")));
         ("href", JStr url)]
      else []
  | _ => []
  end.

End Normalizer.

(* ------------------------------------------------------------------ *)
(** ** Cache store over a heap of objects *)

Module Cache.

(** Runtime values of the response objects. Objects live in the heap and
    are reached through references, so that aliasing between the cache
    and the objects handed to callers is explicit. [VBuf] is a buffered
    body ([Buffer.concat(chunks)]). *)
Inductive val :=
| VUndef
| VNull
| VBool (b : bool)
| VNum (n : Z)
| VStr (s : string)
| VBuf (bytes : string)
| VRef (l : positive).

Abbreviation obj := (gmap string val).

(** [cache[hash] = { data : _serialized, time : ... }]. *)
Record entry := { data : positive; time : Z }.

(** The heap, the process-wide table [cache] and the next free address. *)
Record state := {
  heap : gmap positive obj;
  cache : gmap string entry;
  next : positive
}.

(** The response properties copied into and out of the cache. *)
Definition properties : list string :=
  ["body"; "headers"; "httpVersion"; "httpVersionMajor"; "httpVersionMinor";
   "method"; "rawHeaders"; "rawTrailers"; "statusCode"; "statusMessage";
   "trailers"; "url"].

(** [o[k]] on an object. *)
Definition get (o : obj) (k : string) : val := default VUndef (o !! k).

(** [x[k]] for the object at address [l]. *)
Definition read (st : state) (l : positive) (k : string) : val :=
  match heap st !! l with
  | Some o => get o k
  | None => VUndef
  end.

(** Allocation of a new object. *)
Definition alloc (o : obj) (st : state) : state * positive :=
  ({| heap := <[next st := o]> (heap st); cache := cache st; next := Pos.succ (next st) |},
   next st).

(** [x[k] = v] for the object at address [l]. *)
Definition write (l : positive) (k : string) (v : val) (st : state) : state :=
  {| heap := alter (insert k v) l (heap st); cache := cache st; next := next st |}.

(** [properties.forEach(name => dst[name] = src[name])]. *)
Definition copy_properties (src dst : obj) : obj :=
  fold_left (fun o name => <[name := get src name]> o) properties dst.

(** [purgeCache()] with the clock reading [now]: every entry whose
    [time < now] is deleted. *)
Definition purgeCache (now : Z) (st : state) : state :=
  {| heap := heap st;
     cache := filter (fun kv : string * entry => ~ (kv.2.(time) < now)) (cache st);
     next := next st |}.

(** [addToCache(hash, time, response)] at clock reading [now] (the purge
    and the expiry [new Date().getTime() + time] read the same clock). *)
Definition addToCache (now : Z) (hash : string) (t : Z) (response : positive)
    (st : state) : state :=
  let st1 := purgeCache now st in
  let '(st2, serialized) :=
    alloc (copy_properties (default ∅ (heap st1 !! response)) ∅) st1 in
  {| heap := heap st2;
     cache := <[hash := {| data := serialized; time := now + t |}]> (cache st2);
     next := next st2 |}.

(** [fromCache(hash)] at clock reading [now]: a fresh response object
    (whose own fields other than [properties] are not modelled) holding
    the stored values, or [undefined]. *)
Definition fromCache (now : Z) (hash : string) (st : state) : state * option positive :=
  let st1 := purgeCache now st in
  match cache st1 !! hash with
  | Some e =>
      let values := default ∅ (heap st1 !! data e) in
      let '(st2, response) := alloc (copy_properties values ∅) st1 in
      (st2, Some response)
  | None => (st1, None)
  end.

(** Addresses in use are below [next]. *)
Definition wf (st : state) : Prop :=
  forall l, is_Some (heap st !! l) -> (l < next st)%positive.

(** The contents of the object a lookup of [hash] returns, if any. *)
Definition lookup_view (now : Z) (hash : string) (st : state) : option obj :=
  match fromCache now hash st with
  | (st', Some l) => heap st' !! l
  | (_, None) => None
  end.

(** [fromCache(hash).body[k]], when the body is an object. *)
Definition lookup_body_field (now : Z) (hash : string) (k : string) (st : state) : val :=
  match fromCache now hash st with
  | (st', Some l) =>
      match read st' l "body" with
      | VRef b => read st' b k
      | _ => VUndef
      end
  | (_, None) => VUndef
  end.

End Cache.

(* ------------------------------------------------------------------ *)
(** ** Request executor: [doRequest] *)

Module Executor.
Import Js Cache.

(** [String(v)] on runtime values (as [RegExp.prototype.test] converts). *)
Definition val_to_string (v : val) : string :=
  match v with
  | VUndef => "undefined"
  | VNull => "null"
  | VBool true => "true"
  | VBool false => "false"
  | VNum n => pretty n
  | VStr s => s
  | VBuf bytes => bytes
  | VRef _ => "[object Object]"
  end.

(** [json(;|$)] at the start of [s]. *)
Definition json_at (s : string) : bool :=
  String.prefix "json" s &&
  match String.get 4 s with
  | None => true
  | Some c => Ascii.eqb c ";"
  end.

(** [(/[+/]json(;|$)/).test(s)]. *)
Fixpoint json_type_test (s : string) : bool :=
  match s with
  | EmptyString => false
  | String c s' =>
      ((Ascii.eqb c "+" || Ascii.eqb c "/") && json_at s') || json_type_test s'
  end.

(** [new jfHttpHeaders(headers).get(name)] on a header object of the heap
    (names compare case-insensitively). *)
Definition header_get (st : state) (headers : val) (name : string) : val :=
  match headers with
  | VRef l =>
      match heap st !! l with
      | Some o =>
          match List.filter (fun kv : string * val => String.eqb (lower kv.1) (lower name))
                  (map_to_list o) with
          | (_, v) :: _ => v
          | [] => VUndef
          end
      | None => VUndef
      end
  | _ => VUndef
  end.

(** The objects [JSON.parse] creates for a parsed value. *)
Fixpoint alloc_json (v : jsval) (st : state) {struct v} : state * val :=
  match v with
  | JUndef => (st, VUndef)
  | JNull => (st, VNull)
  | JBool b => (st, VBool b)
  | JNum n => (st, VNum n)
  | JStr s => (st, VStr s)
  | JFun _ => let '(st1, l) := alloc ∅ st in (st1, VRef l)
  | JObj props =>
      let '(st1, o) :=
        (fix go (ps : list (string * jsval)) (st : state) (o : obj) : state * obj :=
           match ps with
           | [] => (st, o)
           | (k, x) :: ps' => let '(st1, vx) := alloc_json x st in go ps' st1 (<[k := vx]> o)
           end) props st ∅ in
      let '(st2, l) := alloc o st1 in
      (st2, VRef l)
  end.

(** The two continuations [ok] and [error] of [doRequest]. *)
Inductive callback :=
| call_ok (response : positive)
| call_error (err : string).

(** What [doRequest] does first: call [ok] with a response from the cache,
    or open a request ([https] when [options.protocol === 'https:']) whose
    completion is [onEnd] with the computed hash and cache time. *)
Inductive step :=
| from_cache_ok (response : positive)
| open_request (https : bool) (hash : option string) (cacheTime : jsval).

(** The numeric value of a cache time in [new Date().getTime() + time]
    (cache times are numbers; [true] counts as 1). *)
Definition time_number (v : jsval) : Z :=
  match v with
  | JNum n => n
  | JBool true => 1
  | _ => 0
  end.

Section WithCollaborators.

(** SHA-256 in hexadecimal ([crypto.createHash('sha256')...digest('hex')]). *)
Variable sha256_hex : string -> string.
(** [JSON.stringify] of an options record. *)
Variable json_stringify : jsobj -> string.
(** [JSON.parse]; [None] when it throws. *)
Variable json_parse : string -> option jsval.

(** [options.protocol === 'https:']. *)
Definition is_https (options : jsobj) : bool :=
  match obj_get options "protocol" with
  | JStr s => String.eqb s "https:"
  | _ => false
  end.

(** [buildHash(content)]. *)
Definition buildHash (content : string) : string := sha256_hex content.

(** [const _cacheTime = 'cacheTime' in options ? options.cacheTime : cacheTime]. *)
Definition effective_cacheTime (cacheTime : jsval) (options : jsobj) : jsval :=
  if obj_has options "cacheTime" then obj_get options "cacheTime" else cacheTime.

(** [doRequest(options, ok, error)] up to the opening of the request, with
    the module-level default [cacheTime] and clock reading [now]. *)
Definition doRequest (now : Z) (cacheTime : jsval) (options : jsobj) (st : state)
    : state * step :=
  let _cacheTime := effective_cacheTime cacheTime options in
  let '(st1, _hash, _response) :=
    if truthy _cacheTime then
      let h := buildHash (json_stringify options) in
      let '(st1, r) := fromCache now h st in
      (st1, Some h, r)
    else (st, None, None) in
  match _response with
  | Some r => (st1, from_cache_ok r)
  | None =>
      (st1, open_request (is_https options) _hash _cacheTime)
  end.

(** The ['end'] handler of the response [response] (whose body arrived as
    [chunks]), at clock reading [now]: decode, store in the cache when a
    hash was computed, then call [ok(response)]. *)
Definition onEnd (now : Z) (_hash : option string) (_cacheTime : jsval)
    (response : positive) (chunks : list string) (st : state) : state * callback :=
  let buffer := String.concat "" chunks in
  let _contentType := header_get st (read st response "headers") "Content-Type" in
  let '(st1, _body) :=
    if json_type_test (val_to_string _contentType) then
      match json_parse buffer with
      | Some j => alloc_json j st
      | None => alloc_json (JObj []) st
      end
    else (st, VBuf buffer) in
  let st2 := write response "body" _body st1 in
  let st3 := match _hash with
             | Some h => addToCache now h (time_number _cacheTime) response st2
             | None => st2
             end in
  (st3, call_ok response).

(** The request's ['error'] handler. *)
Definition onError (err : string) : callback := call_error err.

End WithCollaborators.

End Executor.

(* ------------------------------------------------------------------ *)
(** ** Delivery adapters: [typeCallback], [typeEvents], [typePromise] *)

Module Delivery.
Import Js Cache Executor.

(** The three result labels. *)
Inductive label := request_error | request_fail | request_ok.

(** What an adapter hands over: a response object or a transport error. *)
Inductive payload :=
| PResponse (response : positive)
| PError (err : string).

(** The single effect an adapter performs when [doRequest] calls back:
    [cb(payload, label)], [_events.emit(label, payload)], [resolve(payload)]
    or [reject(payload)]. *)
Inductive delivered :=
| callback_called (cb : jsval) (p : payload) (l : label)
| event_emitted (l : label) (p : payload)
| promise_resolved (p : payload)
| promise_rejected (p : payload).

Section WithToNumber.

(** [ToNumber] on a string (StringToNumber): its value when it is a finite
    number, [None] when it is [NaN] or infinite; neither of those passes
    [_code >= 200 && _code < 300]. *)
Variable to_number : string -> option Q.

(** Truthiness of a runtime value (a [Buffer] is an object). *)
Definition val_truthy (v : val) : bool :=
  match v with
  | VUndef | VNull => false
  | VBool b => b
  | VNum n => negb (Z.eqb n 0)
  | VStr s => negb (String.eqb s "")
  | VBuf _ | VRef _ => true
  end.

(** [ToNumber] of an operand of [>=] and [<]: objects go through
    [ToPrimitive], i.e. their string form. *)
Definition val_to_number (v : val) : option Q :=
  match v with
  | VUndef => None
  | VNull => Some 0%Q
  | VBool b => Some (if b then 1%Q else 0%Q)
  | VNum n => Some (inject_Z n)
  | VStr _ | VBuf _ | VRef _ => to_number (val_to_string v)
  end.

(** [isOk(response)] on a response object of the heap:
    [const _code = (response && response.statusCode) || 0;
     return (_code >= 200 && _code < 300) || _code === 304;] *)
Definition isOk_at (st : state) (response : positive) : bool :=
  let code := if val_truthy (read st response "statusCode")
              then read st response "statusCode" else VNum 0 in
  (match val_to_number code with
   | Some x => Qle_bool 200 x && negb (Qle_bool 300 x)
   | None => false
   end)
  || match code with VNum n => Z.eqb n 304 | _ => false end.

(** The adapter selected by [jfHttpRequest], applied to the continuation
    [doRequest] invokes ([ok] in state [st], or [error]). *)
Definition deliver (d : Normalizer.delivery) (st : state) (c : callback) : delivered :=
  match d, c with
  | Normalizer.typeCallback cb, call_ok r =>
      callback_called cb (PResponse r) (if isOk_at st r then request_ok else request_fail)
  | Normalizer.typeCallback cb, call_error e => callback_called cb (PError e) request_error
  | Normalizer.typeEvents, call_ok r =>
      event_emitted (if isOk_at st r then request_ok else request_fail) (PResponse r)
  | Normalizer.typeEvents, call_error e => event_emitted request_error (PError e)
  | Normalizer.typePromise _, call_ok r => promise_resolved (PResponse r)
  | Normalizer.typePromise _, call_error e => promise_rejected (PError e)
  end.

End WithToNumber.

(** The label a callback or an event carries, if any. *)
Definition label_of (x : delivered) : option label :=
  match x with
  | callback_called _ _ l => Some l
  | event_emitted l _ => Some l
  | _ => None
  end.

End Delivery.

(** Every cache entry points to an object of the heap. *)
Definition cache_wf (st : Cache.state) : Prop :=
  forall h e, Cache.cache st !! h = Some e -> is_Some (Cache.heap st !! Cache.data e).

(* ================================================================== *)
(** * Proofs *)

Module JsFacts.
Import Js.

Lemma obj_get_set_eq o k v : obj_get (obj_set o k v) k = v.
Proof.
  induction o as [|[k' v'] o IH]; simpl.
  - now rewrite String.eqb_refl.
  - destruct (String.eqb k k') eqn:E; simpl; rewrite ?E; auto.
Qed.

Lemma obj_get_set_ne o k k' v :
  k <> k' -> obj_get (obj_set o k v) k' = obj_get o k'.
Proof.
  intros Hne. induction o as [|[k1 v1] o IH]; simpl.
  - apply String.eqb_neq in Hne. rewrite String.eqb_sym, Hne. reflexivity.
  - destruct (String.eqb k k1) eqn:E; simpl.
    + apply String.eqb_eq in E; subst k1.
      apply String.eqb_neq in Hne. rewrite String.eqb_sym, Hne. reflexivity.
    + destruct (String.eqb k' k1); auto.
Qed.

Lemma obj_has_set o k k' v :
  obj_has (obj_set o k v) k' = (String.eqb k' k || obj_has o k')%bool.
Proof.
  induction o as [|[k1 v1] o IH]; simpl.
  - now rewrite orb_false_r.
  - destruct (String.eqb k k1) eqn:E; simpl.
    + apply String.eqb_eq in E; subst k1.
      destruct (String.eqb k' k); reflexivity.
    + rewrite IH. destruct (String.eqb k' k1), (String.eqb k' k); reflexivity.
Qed.

Lemma obj_get_delete_eq o k : obj_get (obj_delete o k) k = JUndef.
Proof.
  induction o as [|[k1 v1] o IH]; simpl; auto.
  destruct (String.eqb k k1) eqn:E; simpl; auto. rewrite E. exact IH.
Qed.

Lemma obj_get_delete_ne o k k' :
  k <> k' -> obj_get (obj_delete o k) k' = obj_get o k'.
Proof.
  intros Hne. induction o as [|[k1 v1] o IH]; simpl; auto.
  destruct (String.eqb k k1) eqn:E; simpl.
  - apply String.eqb_eq in E; subst k1.
    apply String.eqb_neq in Hne. rewrite String.eqb_sym, Hne. exact IH.
  - destruct (String.eqb k' k1); auto.
Qed.

Lemma obj_has_delete_eq o k : obj_has (obj_delete o k) k = false.
Proof.
  induction o as [|[k1 v1] o IH]; simpl; auto.
  destruct (String.eqb k k1) eqn:E; simpl; auto. rewrite E. exact IH.
Qed.

Lemma obj_has_In o k : obj_has o k = true <-> In k (map fst o).
Proof.
  unfold obj_has. rewrite existsb_exists. split.
  - intros [[k' v] [Hin Heq]]. apply String.eqb_eq in Heq. simpl in Heq. subst k'.
    apply (in_map fst) in Hin. exact Hin.
  - intros Hin. apply in_map_iff in Hin as [[k' v] [Heq Hin]]. simpl in Heq. subst k'.
    exists (k, v). split; [exact Hin | apply String.eqb_refl].
Qed.

Lemma obj_get_has o k : obj_get o k <> JUndef -> obj_has o k = true.
Proof.
  induction o as [|[k1 v1] o IH]; simpl; [congruence|].
  destruct (String.eqb k k1); simpl; auto.
Qed.

Lemma in_keys_set o k v x :
  In x (map fst (obj_set o k v)) -> x = k \/ In x (map fst o).
Proof.
  induction o as [|[k1 v1] o IH]; simpl.
  - intros [H|[]]. left; congruence.
  - destruct (String.eqb k k1) eqn:E; simpl.
    + intros [H|H]; auto.
    + intros [H|H]; auto. destruct (IH H); auto.
Qed.

Lemma nodup_keys_set o k v :
  NoDup (map fst o) -> NoDup (map fst (obj_set o k v)).
Proof.
  induction o as [|[k1 v1] o IH]; simpl; intros Hnd.
  - constructor; [apply not_elem_of_nil|constructor].
  - inversion Hnd as [|? ? Hnin Hnd']; subst.
    destruct (String.eqb k k1) eqn:E; simpl.
    + constructor; assumption.
    + constructor; [|auto].
      intros Hin. apply list_elem_of_In, in_keys_set in Hin as [Hin|Hin].
      2:{ apply Hnin, list_elem_of_In, Hin. }
      subst k1. rewrite String.eqb_refl in E. discriminate.
Qed.

Lemma obj_get_assign_notin t src k :
  obj_has src k = false -> obj_get (obj_assign t src) k = obj_get t k.
Proof.
  unfold obj_assign. revert t.
  induction src as [|[k1 v1] src IH]; intros t Hk; simpl in *; auto.
  apply orb_false_iff in Hk as [Hk1 Hk]. rewrite IH by exact Hk.
  apply obj_get_set_ne. intros ->. rewrite String.eqb_refl in Hk1. discriminate.
Qed.

Lemma obj_get_assign_in t src k :
  NoDup (map fst src) -> obj_has src k = true ->
  obj_get (obj_assign t src) k = obj_get src k.
Proof.
  unfold obj_assign. revert t.
  induction src as [|[k1 v1] src IH]; intros t Hnd Hk; simpl in *; [discriminate|].
  inversion Hnd as [|? ? Hnin Hnd']; subst.
  destruct (String.eqb k k1) eqn:E.
  - apply String.eqb_eq in E; subst k1.
    pose proof (obj_get_assign_notin (obj_set t k v1) src k) as Hn.
    unfold obj_assign in Hn. rewrite Hn.
    + apply obj_get_set_eq.
    + destruct (obj_has src k) eqn:Hs; auto.
      apply obj_has_In, list_elem_of_In in Hs. contradiction.
  - simpl in Hk. apply IH; assumption.
Qed.

End JsFacts.

Module ClassifierProofs.
Import Classifier.

Lemma isOk_code (c : Z) :
  isOk (Some {| statusCode := Some c |}) = true <-> (200 <= c < 300 \/ c = 304).
Proof.
  unfold isOk; simpl. destruct (Z.eqb_spec c 0) as [->|Hc].
  - simpl. split; [discriminate | lia].
  - rewrite orb_true_iff, andb_true_iff, Z.leb_le, Z.ltb_lt, Z.eqb_eq. tauto.
Qed.

(** Claim C1: for every status code [c], [classify] returns [request_ok]
    exactly when [200 <= c < 300] or [c = 304], and [request_fail]
    otherwise, also for an absent status code or no response at all. *)
Theorem classify_status_code (c : Z) :
  (classify (Some {| statusCode := Some c |}) = request_ok <-> (200 <= c < 300 \/ c = 304)) /\
  (classify (Some {| statusCode := Some c |}) = request_fail <-> ~ (200 <= c < 300 \/ c = 304)) /\
  classify (Some {| statusCode := Some 0 |}) = request_fail /\
  classify (Some {| statusCode := None |}) = request_fail /\
  classify None = request_fail.
Proof.
  pose proof (isOk_code c) as H. unfold classify.
  destruct (isOk (Some {| statusCode := Some c |})) eqn:E.
  - repeat split; try reflexivity; try discriminate.
    + intros _. apply H. reflexivity.
    + intros Hn. exfalso. apply Hn, H. reflexivity.
  - repeat split; try reflexivity; try discriminate.
    + intros Hc. apply H in Hc. discriminate.
    + intros _ Hc. apply H in Hc. discriminate.
Qed.

End ClassifierProofs.

Module NormalizerProofs.
Import Js JsFacts Normalizer.

Lemma hdr_get_set_eq h n v : hdr_get (hdr_set h n v) n = v.
Proof.
  induction h as [|[k v'] h IH]; simpl.
  - now rewrite String.eqb_refl.
  - destruct (String.eqb (lower k) (lower n)) eqn:E; simpl.
    + now rewrite String.eqb_refl.
    + rewrite E. exact IH.
Qed.

Lemma hdr_get_set_ne h n n' v :
  lower n <> lower n' -> hdr_get (hdr_set h n v) n' = hdr_get h n'.
Proof.
  intros Hne. apply String.eqb_neq in Hne.
  induction h as [|[k v'] h IH]; simpl.
  - now rewrite Hne.
  - destruct (String.eqb (lower k) (lower n)) eqn:E; simpl.
    + rewrite Hne. apply String.eqb_eq in E. rewrite E, Hne. reflexivity.
    + destruct (String.eqb (lower k) (lower n')); auto.
Qed.

(** Claim C3, counterexample: a structured-object body with no [headers]
    field at all gets no headers: [checkHeaders] only runs when the
    [headers] field is present. *)
Lemma checkHeaders_no_headers_field :
  checkHeaders [("body", JObj [("a", JNum 1)])] = Some [("body", JObj [("a", JNum 1)])] /\
  obj_has [("body", JObj [("a", JNum 1)])] "headers" = false.
Proof. split; reflexivity. Qed.

(** Claim C3 (amended): for a structured-object body, when the options
    have no [headers] field [checkHeaders] leaves them unchanged (no
    headers are added), and when they have a [headers] field without
    Content-Type and Accept headers (for instance [headers: {}]) it sets
    [Content-Type: application/json; charset=utf-8] and
    [Accept: application/json]. *)
Theorem checkHeaders_object_body (options b : jsobj) :
  obj_get options "body" = JObj b ->
  (obj_has options "headers" = false -> checkHeaders options = Some options) /\
  (obj_has options "headers" = true ->
   truthy (hdr_get (hdrs_of (obj_get options "headers")) "Content-Type") = false ->
   truthy (hdr_get (hdrs_of (obj_get options "headers")) "Accept") = false ->
   exists o', checkHeaders options = Some o' /\
     hdr_get (hdrs_of (obj_get o' "headers")) "Content-Type"
       = JStr "application/json; charset=utf-8" /\
     hdr_get (hdrs_of (obj_get o' "headers")) "Accept" = JStr "application/json").
Proof.
  intros Hb. split.
  { intros Hh. unfold checkHeaders. rewrite Hh. reflexivity. }
  intros Hh Hct Hacc.
  assert (Hbody : obj_has options "body" = true) by (apply obj_get_has; congruence).
  assert (Hne : lower "Content-Type" <> lower "Accept") by (vm_compute; discriminate).
  unfold checkHeaders. rewrite Hh, Hct, Hbody, Hb. simpl.
  set (h0 := hdrs_of (obj_get options "headers")).
  set (h1 := hdr_set h0 "Content-Type" (JStr "application/json; charset=utf-8")).
  assert (E1 : hdr_get h1 "Accept" = hdr_get h0 "Accept")
    by (apply hdr_get_set_ne; exact Hne).
  assert (E2 : hdr_get h1 "Content-Type" = JStr "application/json; charset=utf-8")
    by apply hdr_get_set_eq.
  rewrite E1. fold h0 in Hacc. rewrite Hacc, E2. simpl.
  eexists. split; [reflexivity|].
  rewrite obj_get_set_eq. simpl. split.
  - rewrite hdr_get_set_ne by (intro H; apply Hne; symmetry; exact H). exact E2.
  - apply hdr_get_set_eq.
Qed.

(** A witness of [checkHeaders_object_body] on [{headers: {}, body: {}}]. *)
Lemma checkHeaders_object_body_witness :
  (obj_has [("headers", JObj []); ("body", JObj [])] "headers" = false ->
   checkHeaders [("headers", JObj []); ("body", JObj [])]
     = Some [("headers", JObj []); ("body", JObj [])]) /\
  (obj_has [("headers", JObj []); ("body", JObj [])] "headers" = true ->
   truthy (hdr_get (hdrs_of (obj_get [("headers", JObj []); ("body", JObj [])] "headers"))
             "Content-Type") = false ->
   truthy (hdr_get (hdrs_of (obj_get [("headers", JObj []); ("body", JObj [])] "headers"))
             "Accept") = false ->
   exists o', checkHeaders [("headers", JObj []); ("body", JObj [])] = Some o' /\
     hdr_get (hdrs_of (obj_get o' "headers")) "Content-Type"
       = JStr "application/json; charset=utf-8" /\
     hdr_get (hdrs_of (obj_get o' "headers")) "Accept" = JStr "application/json").
Proof.
  apply (checkHeaders_object_body [("headers", JObj []); ("body", JObj [])] []).
  reflexivity.
Defined.

Lemma obj_get_assign_set_path t u v :
  NoDup (map fst u) -> obj_get (obj_assign t (obj_set u "path" v)) "path" = v.
Proof.
  intros Hnd. rewrite obj_get_assign_in.
  - apply obj_get_set_eq.
  - apply nodup_keys_set, Hnd.
  - rewrite obj_has_set, String.eqb_refl. reflexivity.
Qed.

(** An explicit but empty [pathname] is not truthy, so the path stays
    the one of the URL. *)
Lemma checkUrl_url_empty_pathname :
  obj_has [("url", JStr "http://h/p"); ("pathname", JStr "")] "pathname" = true /\
  obj_get (checkUrl_url url_parse_model [("url", JStr "http://h/p"); ("pathname", JStr "")]) "path"
    = JStr "/p" /\
  obj_get (checkUrl_url url_parse_model [("url", JStr "http://h/p"); ("pathname", JStr "")]) "path"
    <> obj_get [("url", JStr "http://h/p"); ("pathname", JStr "")] "pathname".
Proof. vm_compute. split; [reflexivity|split; [reflexivity|discriminate]]. Qed.

Lemma string_app_nonempty_neq (a b : string) : b <> ""%string -> (a ++ b)%string <> a.
Proof.
  intros Hb. induction a as [|c a IH]; simpl; [exact Hb|].
  intros E. injection E as E. exact (IH E).
Qed.

(** Claim C4 (code bug): for options whose [url] is a string and whose
    [pathname] option is not truthy, when the parsed URL has a non-empty
    [query] [q] and, as with Node's [url.parse], a [path] that is already
    [pathname ++ '?' ++ q], the resulting path is that [path] followed by
    ['?'] and [q] again: the query appears twice, and the path is never
    the [pathname ++ '?' ++ q] the spec describes. The [url] field is
    removed. *)
Theorem checkUrl_url_query_duplicated (urlParse : string -> jsobj) (options : jsobj)
    (url pn q : string) :
  obj_get options "url" = JStr url ->
  NoDup (map fst (urlParse url)) ->
  truthy (obj_get options "pathname") = false ->
  obj_get (urlParse url) "path" = JStr (pn ++ "?" ++ q) ->
  obj_get (urlParse url) "query" = JStr q -> q <> ""%string ->
  obj_has (checkUrl_url urlParse options) "url" = false /\
  obj_get (checkUrl_url urlParse options) "path" = JStr ((pn ++ "?" ++ q) ++ "?" ++ q) /\
  obj_get (checkUrl_url urlParse options) "path" <> JStr (pn ++ "?" ++ q).
Proof.
  intros Hurl Hnd Hp Hpath Hq Hne.
  assert (Hqt : truthy (obj_get (urlParse url) "query") = true)
    by (rewrite Hq; simpl; apply negb_true_iff, String.eqb_neq, Hne).
  assert (Hres : obj_get (checkUrl_url urlParse options) "path"
                 = JStr ((pn ++ "?" ++ q) ++ "?" ++ q)).
  { unfold checkUrl_url. rewrite Hurl, Hp, Hqt. cbv beta iota zeta.
    rewrite obj_get_delete_ne by discriminate. rewrite obj_get_assign_set_path by exact Hnd.
    rewrite Hpath, Hq. reflexivity. }
  split; [|split; [exact Hres|]].
  - unfold checkUrl_url. rewrite Hurl, Hp, Hqt. apply obj_has_delete_eq.
  - rewrite Hres. intros E. injection E as E.
    exact (string_app_nonempty_neq _ ("?" ++ q) ltac:(discriminate) E).
Qed.

(** A witness of [checkUrl_url_query_duplicated] on
    [{url: 'http://h/p?a=1'}]. *)
Lemma checkUrl_url_query_duplicated_witness :
  obj_has (checkUrl_url url_parse_model [("url", JStr "http://h/p?a=1")]) "url" = false /\
  obj_get (checkUrl_url url_parse_model [("url", JStr "http://h/p?a=1")]) "path"
    = JStr (("/p" ++ "?" ++ "a=1") ++ "?" ++ "a=1") /\
  obj_get (checkUrl_url url_parse_model [("url", JStr "http://h/p?a=1")]) "path"
    <> JStr ("/p" ++ "?" ++ "a=1").
Proof.
  apply (checkUrl_url_query_duplicated url_parse_model [("url", JStr "http://h/p?a=1")]
           "http://h/p?a=1" "/p" "a=1").
  - reflexivity.
  - vm_compute. repeat constructor; vm_compute; set_solver.
  - reflexivity.
  - reflexivity.
  - reflexivity.
  - discriminate.
Defined.

(** With Node's parser, whose [path] already ends in [?query], the query
    string appears twice in the resulting path. *)
Example checkUrl_url_query_twice :
  obj_get (checkUrl_url url_parse_model [("url", JStr "http://h/p?a=1")]) "path"
    = JStr "/p?a=1?a=1".
Proof. reflexivity. Qed.

(** Claim C8: with no options (a falsy value) the entry point throws
    [TypeError('Wrong options')], and when no hostname is left after URL
    parsing and host aliasing it throws [TypeError('Wrong hostname')];
    in both cases nothing is dispatched to a delivery adapter, so no I/O
    starts and no callback, event or promise sees the error. *)
Theorem jfHttpRequest_config_error (urlParse : string -> jsobj) (options : jsval) :
  truthy options = false \/ truthy (resolved_hostname urlParse options) = false ->
  jfHttpRequest urlParse options
    = Throws (TypeError (if truthy options then "Wrong hostname" else "Wrong options")).
Proof.
  intros H. unfold jfHttpRequest. destruct (truthy options) eqn:T.
  - destruct H as [H|H]; [discriminate|].
    unfold checkUrl. unfold resolved_hostname in H. rewrite H. reflexivity.
  - reflexivity.
Qed.

(** A witness of [jfHttpRequest_config_error] on [{path: '/'}]. *)
Lemma jfHttpRequest_config_error_witness :
  jfHttpRequest url_parse_model (JObj [("path", JStr "/")])
    = Throws (TypeError "Wrong hostname").
Proof.
  apply (jfHttpRequest_config_error url_parse_model (JObj [("path", JStr "/")])).
  right. reflexivity.
Defined.

(** Claim C2 (code bug): a string [requestType], ['promise'] included, is
    not a function, so the entry point dispatches to the event adapter
    and returns an event emitter, never a promise. *)
Theorem jfHttpRequest_string_requestType (urlParse : string -> jsobj)
    (options o1 o2 : jsobj) (s : string) :
  truthy (JObj options) = true ->
  checkUrl urlParse options = Some o1 ->
  checkHeaders o1 = Some o2 ->
  obj_get o2 "requestType" = JStr s ->
  jfHttpRequest urlParse (JObj options) = Dispatch typeEvents (obj_delete o2 "requestType").
Proof.
  intros _ H1 H2 H3. unfold jfHttpRequest. simpl options_of. simpl truthy.
  rewrite H1, H2, H3. reflexivity.
Qed.

(** A witness of [jfHttpRequest_string_requestType] at
    [{url: 'http://jsonplaceholder.typicode.com/posts/1', requestType: 'promise'}]. *)
Lemma jfHttpRequest_string_requestType_witness :
  jfHttpRequest url_parse_model
    (JObj [("url", JStr "http://jsonplaceholder.typicode.com/posts/1");
           ("requestType", JStr "promise")])
  = Dispatch typeEvents
      [("protocol", JStr "http:"); ("slashes", JBool true); ("auth", JNull);
       ("port", JNull); ("hostname", JStr "jsonplaceholder.typicode.com");
       ("hash", JNull); ("search", JNull); ("query", JNull);
       ("pathname", JStr "/posts/1"); ("path", JStr "/posts/1");
       ("href", JStr "http://jsonplaceholder.typicode.com/posts/1")].
Proof.
  pose (o1 := [("requestType", JStr "promise"); ("protocol", JStr "http:");
               ("slashes", JBool true); ("auth", JNull); ("port", JNull);
               ("hostname", JStr "jsonplaceholder.typicode.com");
               ("hash", JNull); ("search", JNull); ("query", JNull);
               ("pathname", JStr "/posts/1"); ("path", JStr "/posts/1");
               ("href", JStr "http://jsonplaceholder.typicode.com/posts/1")]).
  etransitivity.
  - apply (jfHttpRequest_string_requestType url_parse_model _ o1 o1 "promise");
      reflexivity.
  - reflexivity.
Defined.

End NormalizerProofs.

Module CacheProofs.
Import Cache.

Lemma lookup_purge now st h :
  cache (purgeCache now st) !! h =
  match cache st !! h with
  | Some e => if decide (time e < now) then None else Some e
  | None => None
  end.
Proof.
  simpl. rewrite map_lookup_filter. destruct (cache st !! h) as [e|]; simpl; [|done].
  case_guard; case_decide; simpl; try done; lia.
Qed.

Lemma get_copy_properties_gen (names : list string) src dst k :
  get (fold_left (fun o name => <[name := get src name]> o) names dst) k =
  if decide (k ∈ names) then get src k else get dst k.
Proof.
  revert dst. induction names as [|n names IH]; intros dst; cbn [fold_left].
  - destruct (decide (k ∈ [])) as [H|H]; [set_solver | reflexivity].
  - rewrite IH. unfold get at 2. rewrite lookup_insert.
    destruct (decide (k ∈ names)), (decide (k ∈ n :: names)), (decide (n = k));
      subst; try reflexivity; set_solver.
Qed.

Lemma get_copy_properties src dst k :
  k ∈ properties -> get (copy_properties src dst) k = get src k.
Proof.
  intros Hk. unfold copy_properties. rewrite get_copy_properties_gen.
  case_decide; [reflexivity | contradiction].
Qed.

Lemma copy_properties_Forall src dst :
  Forall (fun name => get (copy_properties src dst) name = get src name) properties.
Proof.
  apply Forall_forall. intros x Hx. apply get_copy_properties. exact Hx.
Qed.

Lemma addToCache_cache now h t r st :
  cache (addToCache now h t r st) !! h = Some {| data := next st; time := now + t |}.
Proof. simpl. apply lookup_insert_eq. Qed.

Lemma addToCache_heap now h t r st :
  heap (addToCache now h t r st)
  = <[next st := copy_properties (default ∅ (heap st !! r)) ∅]> (heap st).
Proof. reflexivity. Qed.

Lemma addToCache_next now h t r st :
  next (addToCache now h t r st) = Pos.succ (next st).
Proof. reflexivity. Qed.

Lemma fromCache_hit now h st e :
  cache st !! h = Some e -> ~ (time e < now) ->
  fromCache now h st =
  ({| heap := <[next st := copy_properties (default ∅ (heap st !! data e)) ∅]> (heap st);
      cache := cache (purgeCache now st);
      next := Pos.succ (next st) |}, Some (next st)).
Proof.
  intros He Ht. unfold fromCache. rewrite lookup_purge, He.
  case_decide; [contradiction|]. reflexivity.
Qed.

Lemma fromCache_miss now h st :
  (forall e, cache st !! h = Some e -> time e < now) ->
  snd (fromCache now h st) = None.
Proof.
  intros H. unfold fromCache. rewrite lookup_purge.
  destruct (cache st !! h) as [e|] eqn:He; [|reflexivity].
  case_decide as Ht; [reflexivity|]. exfalso. apply Ht, H. first [exact He | reflexivity].
Qed.

(** Claim C5: after [addToCache] of the response [r] under [h] with time
    [t] at clock [n0], a lookup of [h] at clock [n1 <= n0 + t] returns a
    fresh response object whose [properties] all equal those of [r], and
    a lookup at [n1 > n0 + t] returns [undefined]. *)
Theorem cache_round_trip (st : state) (h : string) (t n0 n1 : Z) (r : positive) (o : obj) :
  heap st !! r = Some o ->
  (n1 - n0 <= t ->
   exists st' l o', fromCache n1 h (addToCache n0 h t r st) = (st', Some l) /\
     heap st' !! l = Some o' /\
     Forall (fun name => get o' name = get o name) properties) /\
  (t < n1 - n0 -> snd (fromCache n1 h (addToCache n0 h t r st)) = None).
Proof.
  intros Hr. split.
  - intros Hin.
    rewrite (fromCache_hit n1 h _ _ (addToCache_cache n0 h t r st)) by (simpl; lia).
    eexists _, _, _. split; [reflexivity|]. split; [apply lookup_insert_eq|].
    simpl. rewrite lookup_insert_eq. simpl. rewrite Hr. simpl.
    apply Forall_forall. intros x Hx.
    rewrite !get_copy_properties by exact Hx. reflexivity.
  - intros Hout. apply fromCache_miss.
    rewrite addToCache_cache. intros e [= <-]. simpl. lia.
Qed.

(** A witness of [cache_round_trip]: a response with status 200 stored for
    1000 ms at clock 0. *)
Lemma cache_round_trip_witness :
  (500 - 0 <= 1000 ->
   exists st' l o', fromCache 500 "h"
       (addToCache 0 "h" 1000 1 {| heap := {[1%positive := {["statusCode" := VNum 200]}]};
                                   cache := ∅; next := 2 |}) = (st', Some l) /\
     heap st' !! l = Some o' /\
     Forall (fun name => get o' name = get {["statusCode" := VNum 200]} name) properties) /\
  (1000 < 500 - 0 -> snd (fromCache 500 "h"
       (addToCache 0 "h" 1000 1 {| heap := {[1%positive := {["statusCode" := VNum 200]}]};
                                   cache := ∅; next := 2 |})) = None).
Proof.
  apply (cache_round_trip {| heap := {[1%positive := {["statusCode" := VNum 200]}]};
                             cache := ∅; next := 2 |}).
  reflexivity.
Defined.

(** Claim C9, counterexample: an entry whose [time] is 5 survives a purge
    at clock 5 but not a second purge at clock 6, so two purges in a row
    can leave less than one purge. *)
Lemma purgeCache_twice_clock_moves :
  cache (purgeCache 5 {| heap := ∅; cache := {["h" := {| data := 1; time := 5 |}]};
                          next := 1 |}) !! "h" = Some {| data := 1; time := 5 |} /\
  cache (purgeCache 6 (purgeCache 5 {| heap := ∅;
                                       cache := {["h" := {| data := 1; time := 5 |}]};
                                       next := 1 |})) !! "h" = None.
Proof.
  split; vm_compute; reflexivity.
Qed.

(** Claim C9 (amended): a purge at clock [n2] after a purge at an earlier
    or equal clock [n1] leaves the store as a single purge at [n2]; in
    particular two purges with the same clock reading equal one. *)
Theorem purgeCache_twice (n1 n2 : Z) (st : state) :
  n1 <= n2 -> purgeCache n2 (purgeCache n1 st) = purgeCache n2 st.
Proof.
  intros Hle. destruct st as [hp c nx]. unfold purgeCache; cbn. f_equal.
  apply map_eq. intros i. rewrite !map_lookup_filter.
  destruct (c !! i) as [e|]; simpl; [|reflexivity].
  repeat (case_guard; simpl); try reflexivity; lia.
Qed.

(** A witness of [purgeCache_twice]: two purges at the same clock. *)
Lemma purgeCache_twice_witness :
  purgeCache 5 (purgeCache 5 {| heap := ∅; cache := {["h" := {| data := 1; time := 5 |}]};
                                next := 1 |})
  = purgeCache 5 {| heap := ∅; cache := {["h" := {| data := 1; time := 5 |}]}; next := 1 |}.
Proof. apply purgeCache_twice. lia. Defined.

Lemma lookup_view_write n h st x k v :
  (forall e, cache st !! h = Some e -> data e <> x) ->
  lookup_view n h (write x k v st) = lookup_view n h st.
Proof.
  intros Hx. unfold lookup_view, fromCache. rewrite !lookup_purge. cbn [cache write].
  destruct (cache st !! h) as [e|] eqn:He; [|reflexivity].
  case_decide; [reflexivity|]. cbn. rewrite !lookup_insert_eq.
  rewrite lookup_alter_ne by (apply not_eq_sym, Hx; first [exact He | reflexivity]).
  reflexivity.
Qed.

(** Claim C10, counterexample: the copy is shallow. The original response
    [1] has a body object [2] with [x = 1]; after insertion, setting
    [response.body.x = 2] changes what [fromCache(h).body.x] reads. *)
Lemma cache_nested_body_shared :
  lookup_body_field 10 "h" "x"
    (addToCache 0 "h" 1000 1
       {| heap := <[1%positive := {["body" := VRef 2]}]> {[2%positive := {["x" := VNum 1]}]};
          cache := ∅; next := 3 |}) = VNum 1 /\
  lookup_body_field 10 "h" "x"
    (write 2 "x" (VNum 2)
       (addToCache 0 "h" 1000 1
          {| heap := <[1%positive := {["body" := VRef 2]}]> {[2%positive := {["x" := VNum 1]}]};
             cache := ∅; next := 3 |})) = VNum 2.
Proof. vm_compute. split; reflexivity. Qed.

(** Claim C10 (amended): [addToCache] stores a fresh object holding the
    values of the response's [properties] (references to nested objects
    included, so nested objects are shared, not copied); assigning any
    property of the original response afterwards does not change what a
    lookup returns, and each lookup returns a fresh object, so assigning
    a property of it does not change what a later lookup returns. *)
Theorem cache_snapshot_copy (st : state) (h : string) (t n0 n1 n2 : Z)
    (r : positive) (o : obj) (k : string) (v : val) :
  wf st -> heap st !! r = Some o ->
  (exists e d, cache (addToCache n0 h t r st) !! h = Some e /\
     heap (addToCache n0 h t r st) !! data e = Some d /\ data e <> r /\
     Forall (fun name => get d name = get o name) properties) /\
  lookup_view n1 h (write r k v (addToCache n0 h t r st))
    = lookup_view n1 h (addToCache n0 h t r st) /\
  (forall st2 l, fromCache n1 h (addToCache n0 h t r st) = (st2, Some l) ->
     heap (addToCache n0 h t r st) !! l = None /\
     lookup_view n2 h (write l k v st2) = lookup_view n2 h st2).
Proof.
  intros Hwf Hr.
  assert (Hlt : (r < next st)%positive) by (apply Hwf; rewrite Hr; eexists; reflexivity).
  assert (Hne : next st <> r) by (intros E; rewrite E in Hlt; lia).
  split; [|split].
  - eexists _, _. split; [apply addToCache_cache|]. cbn [data].
    rewrite addToCache_heap.
    split; [apply lookup_insert_eq|]. split; [exact Hne|].
    rewrite Hr. apply copy_properties_Forall.
  - apply lookup_view_write. rewrite addToCache_cache. intros e [= <-]. exact Hne.
  - intros st2 l Hl. unfold fromCache in Hl. rewrite lookup_purge, addToCache_cache in Hl.
    case_decide; [discriminate|]. cbn in Hl. injection Hl as <- <-. split.
    + rewrite addToCache_heap, lookup_insert_ne by lia.
      destruct (heap st !! Pos.succ (next st)) eqn:E; [|reflexivity].
      assert (Hs : (Pos.succ (next st) < next st)%positive)
        by (apply Hwf; rewrite E; eexists; reflexivity). lia.
    + apply lookup_view_write. cbn [cache]. intros e He.
      apply map_lookup_filter_Some in He as [He _].
      rewrite lookup_insert_eq in He. injection He as <-. cbn. lia.
Qed.

(** A witness of [cache_snapshot_copy] on the store of
    [cache_nested_body_shared]. *)
Lemma cache_snapshot_copy_witness :
  let st := {| heap := <[1%positive := {["body" := VRef 2]}]> {[2%positive := {["x" := VNum 1]}]};
               cache := ∅; next := 3 |} in
  (exists e d, cache (addToCache 0 "h" 1000 1 st) !! "h" = Some e /\
     heap (addToCache 0 "h" 1000 1 st) !! data e = Some d /\ data e <> 1%positive /\
     Forall (fun name => get d name = get {["body" := VRef 2]} name) properties) /\
  lookup_view 10 "h" (write 1 "statusCode" (VNum 500) (addToCache 0 "h" 1000 1 st))
    = lookup_view 10 "h" (addToCache 0 "h" 1000 1 st) /\
  (forall st2 l, fromCache 10 "h" (addToCache 0 "h" 1000 1 st) = (st2, Some l) ->
     heap (addToCache 0 "h" 1000 1 st) !! l = None /\
     lookup_view 20 "h" (write l "statusCode" (VNum 500) st2) = lookup_view 20 "h" st2).
Proof.
  intros st. apply (cache_snapshot_copy st "h" 1000 0 10 20 1 {["body" := VRef 2]}).
  - intros l [x Hx]. destruct (decide (l = 1%positive)) as [->|H1]; [simpl; lia|].
    destruct (decide (l = 2%positive)) as [->|H2]; [simpl; lia|].
    exfalso. simpl in Hx. rewrite lookup_insert_ne in Hx by congruence.
    rewrite lookup_singleton_ne in Hx by congruence. discriminate.
  - reflexivity.
Defined.

End CacheProofs.

Module ExecutorProofs.
Import Js Cache CacheProofs Executor.

(** [st'] extends [st]: addresses below [next st] are untouched. *)
Definition extends (st st' : state) : Prop :=
  (next st <= next st')%positive /\
  (forall l, (l < next st)%positive -> heap st' !! l = heap st !! l) /\
  (wf st -> wf st').

Lemma extends_refl st : extends st st.
Proof. split; [lia|split; auto]. Qed.

Lemma extends_trans st1 st2 st3 :
  extends st1 st2 -> extends st2 st3 -> extends st1 st3.
Proof.
  intros [N1 [H1 W1]] [N2 [H2 W2]]. split; [lia|split; auto].
  intros l Hl. rewrite H2 by lia. apply H1, Hl.
Qed.

Lemma extends_alloc o st : extends st (fst (alloc o st)).
Proof.
  split; [simpl; lia|split].
  - intros l Hl. simpl. apply lookup_insert_ne. lia.
  - intros Hwf l Hl. simpl in *. destruct (decide (l = next st)) as [->|Hne]; [lia|].
    rewrite lookup_insert_ne in Hl by congruence. specialize (Hwf l Hl). lia.
Qed.

Lemma extends_alloc_json j st : extends st (fst (alloc_json j st)).
Proof.
  revert j st. fix IH 1. intros j st.
  destruct j as [| | b | n | s | proto | props]; simpl; try apply extends_refl.
  - apply extends_alloc.
  - assert (Hgo : forall ps st0 o0,
      extends st0 (fst ((fix go (ps : list (string * jsval)) (st : state) (o : obj)
                            : state * obj :=
                           match ps with
                           | [] => (st, o)
                           | (k, x) :: ps' =>
                               let '(st1, vx) := alloc_json x st in go ps' st1 (<[k := vx]> o)
                           end) ps st0 o0))).
    { fix IHgo 1. intros [|[k x] ps] st0 o0; simpl; [apply extends_refl|].
      pose proof (IH x st0) as Hx. destruct (alloc_json x st0) as [st1 vx].
      eapply extends_trans; [exact Hx | apply IHgo]. }
    specialize (Hgo props st ∅).
    destruct ((fix go (ps : list (string * jsval)) (st : state) (o : obj) : state * obj :=
                match ps with
                | [] => (st, o)
                | (k, x) :: ps' =>
                    let '(st1, vx) := alloc_json x st in go ps' st1 (<[k := vx]> o)
                end) props st ∅) as [st1 o1].
    simpl. eapply extends_trans; [exact Hgo | apply extends_alloc].
Qed.

(** Claim C6: the effective cache time is [options.cacheTime] when the
    field is present and the module default otherwise. When it is falsy
    (zero) no hash is computed and a request is opened. When it is truthy
    the key is [buildHash(JSON.stringify(options))] (SHA-256): on a hit
    [ok] receives a fresh object holding the cached [properties] and no
    request is opened; on a miss a request is opened with that key. *)
Theorem doRequest_cache (sha256_hex : string -> string) (json_stringify : jsobj -> string)
    (now : Z) (cacheTime : jsval) (options : jsobj) (st : state) :
  effective_cacheTime cacheTime options
    = (if obj_has options "cacheTime" then obj_get options "cacheTime" else cacheTime) /\
  (truthy (effective_cacheTime cacheTime options) = false ->
   doRequest sha256_hex json_stringify now cacheTime options st
     = (st, open_request (is_https options) None (effective_cacheTime cacheTime options))) /\
  (truthy (effective_cacheTime cacheTime options) = true ->
   forall e d, cache st !! buildHash sha256_hex (json_stringify options) = Some e ->
     ~ (time e < now) -> heap st !! data e = Some d ->
     exists st' l o, doRequest sha256_hex json_stringify now cacheTime options st
                       = (st', from_cache_ok l) /\
       heap st' !! l = Some o /\ Forall (fun name => get o name = get d name) properties) /\
  (truthy (effective_cacheTime cacheTime options) = true ->
   (forall e, cache st !! buildHash sha256_hex (json_stringify options) = Some e -> time e < now) ->
   snd (doRequest sha256_hex json_stringify now cacheTime options st)
     = open_request (is_https options) (Some (buildHash sha256_hex (json_stringify options)))
         (effective_cacheTime cacheTime options)).
Proof.
  split; [reflexivity|]. unfold doRequest.
  destruct (truthy (effective_cacheTime cacheTime options)) eqn:T.
  - split; [discriminate|]. split.
    + intros _ e d He Ht Hd. rewrite (fromCache_hit now _ st e He Ht).
      eexists _, _, _. split; [reflexivity|]. split; [apply lookup_insert_eq|].
      rewrite Hd. apply copy_properties_Forall.
    + intros _ Hmiss. pose proof (fromCache_miss now _ st Hmiss) as Hn.
      destruct (fromCache now (buildHash sha256_hex (json_stringify options)) st)
        as [st1 [l|]]; [discriminate|reflexivity].
  - split; [reflexivity|]. split; discriminate.
Qed.

(** A witness of [doRequest_cache]: options with [cacheTime: 1000] whose
    key is already cached (hash and serialization are placeholders). *)
Lemma doRequest_cache_witness :
  truthy (effective_cacheTime (JNum 0) [("hostname", JStr "h"); ("cacheTime", JNum 1000)]) = true /\
  exists st' l o,
    doRequest (fun s => s) (fun _ => "key") 5 (JNum 0)
      [("hostname", JStr "h"); ("cacheTime", JNum 1000)]
      {| heap := {[1%positive := {["statusCode" := VNum 200]}]};
         cache := {["key" := {| data := 1; time := 10 |}]}; next := 2 |}
    = (st', from_cache_ok l) /\
    heap st' !! l = Some o /\
    Forall (fun name => get o name = get {["statusCode" := VNum 200]} name) properties.
Proof.
  split; [reflexivity|].
  destruct (doRequest_cache (fun s => s) (fun _ => "key") 5 (JNum 0)
              [("hostname", JStr "h"); ("cacheTime", JNum 1000)]
              {| heap := {[1%positive := {["statusCode" := VNum 200]}]};
                 cache := {["key" := {| data := 1; time := 10 |}]}; next := 2 |})
    as [_ [_ [Hhit _]]].
  apply (Hhit eq_refl {| data := 1; time := 10 |}).
  - reflexivity.
  - simpl. lia.
  - reflexivity.
Defined.

(** Claim C7: when the response's Content-Type matches [[+/]json(;|$)],
    the body attached to the response is the parse of the buffered
    chunks, or a fresh empty object when the parse fails; in both cases
    the [ok] continuation is called, never [error]. *)
Theorem onEnd_json_body (json_parse : string -> option jsval) (now : Z)
    (hash : option string) (cacheTime : jsval) (response : positive)
    (chunks : list string) (st : state) (o : obj) :
  wf st -> heap st !! response = Some o ->
  json_type_test (val_to_string (header_get st (read st response "headers") "Content-Type"))
    = true ->
  exists st', onEnd json_parse now hash cacheTime response chunks st = (st', call_ok response) /\
    read st' response "body"
      = snd (alloc_json (match json_parse (String.concat "" chunks) with
                         | Some j => j
                         | None => JObj []
                         end) st) /\
    (json_parse (String.concat "" chunks) = None ->
     read st' response "body" = VRef (next st) /\ heap st' !! next st = Some ∅).
Proof.
  intros Hwf Hr Hct. unfold onEnd. rewrite Hct.
  assert (Hlt : (response < next st)%positive) by (apply Hwf; rewrite Hr; eexists; reflexivity).
  set (J := match json_parse (String.concat "" chunks) with Some j => j | None => JObj [] end).
  assert (EJ : (match json_parse (String.concat "" chunks) with
                | Some j => alloc_json j st
                | None => alloc_json (JObj []) st
                end) = alloc_json J st)
    by (subst J; destruct (json_parse (String.concat "" chunks)); reflexivity).
  rewrite EJ. pose proof (extends_alloc_json J st) as Hext.
  destruct (alloc_json J st) as [st1 body] eqn:EA. simpl in Hext.
  destruct Hext as [N1 [H1 _]].
  assert (Hr1 : heap st1 !! response = Some o) by (rewrite H1 by exact Hlt; exact Hr).
  set (st2 := write response "body" body st1).
  assert (Hr2 : heap st2 !! response = Some (<["body" := body]> o))
    by (subst st2; simpl; rewrite lookup_alter_eq, Hr1; reflexivity).
  assert (Hst3 : forall l, (l < next st1)%positive ->
            heap (match hash with
                  | Some h => addToCache now h (time_number cacheTime) response st2
                  | None => st2
                  end) !! l = heap st2 !! l).
  { intros l Hl. destruct hash as [h|]; [|reflexivity].
    rewrite addToCache_heap. apply lookup_insert_ne. simpl. lia. }
  eexists. split; [reflexivity|].
  assert (Hbody : read (match hash with
                        | Some h => addToCache now h (time_number cacheTime) response st2
                        | None => st2
                        end) response "body" = body).
  { unfold read. rewrite Hst3 by lia. rewrite Hr2. unfold get. rewrite lookup_insert_eq.
    reflexivity. }
  split; [rewrite Hbody; reflexivity|].
  intros Hnone. subst J. rewrite Hnone in EA. simpl in EA. injection EA as <- <-.
  split; [exact Hbody|].
  rewrite Hst3 by (simpl; lia). subst st2. simpl.
  rewrite lookup_alter_ne by lia. apply lookup_insert_eq.
Qed.

(** A witness of [onEnd_json_body]: a response declared
    [application/json] whose body [not json] does not parse. *)
Lemma onEnd_json_body_witness :
  exists st', onEnd (fun _ => None) 0 None (JNum 0) 1 ["not json"]
                {| heap := <[1%positive := {["headers" := VRef 2]}]>
                             {[2%positive := {["content-type" := VStr "application/json"]}]};
                   cache := ∅; next := 3 |} = (st', call_ok 1) /\
    read st' 1 "body"
      = snd (alloc_json (match (fun _ : string => @None jsval) (String.concat "" ["not json"]) with
                         | Some j => j
                         | None => JObj []
                         end)
               {| heap := <[1%positive := {["headers" := VRef 2]}]>
                            {[2%positive := {["content-type" := VStr "application/json"]}]};
                  cache := ∅; next := 3 |}) /\
    ((fun _ : string => @None jsval) (String.concat "" ["not json"]) = None ->
     read st' 1 "body" = VRef 3 /\ heap st' !! 3%positive = Some ∅).
Proof.
  apply (onEnd_json_body (fun _ => None) 0 None (JNum 0) 1 ["not json"]
           {| heap := <[1%positive := {["headers" := VRef 2]}]>
                        {[2%positive := {["content-type" := VStr "application/json"]}]};
              cache := ∅; next := 3 |} {["headers" := VRef 2]}).
  - intros l [x Hx]. destruct (decide (l = 1%positive)) as [->|H1]; [simpl; lia|].
    destruct (decide (l = 2%positive)) as [->|H2]; [simpl; lia|].
    exfalso. simpl in Hx. rewrite lookup_insert_ne in Hx by congruence.
    rewrite lookup_singleton_ne in Hx by congruence. discriminate.
  - reflexivity.
  - vm_compute. reflexivity.
Defined.

End ExecutorProofs.

(* ================================================================== *)
(** * Further properties of the code *)

Module ExtraNormalizer.
Import Js JsFacts Normalizer NormalizerProofs.

Lemma lower_ct_accept : lower "Content-Type" <> lower "Accept".
Proof. vm_compute. discriminate. Qed.

Lemma checkHeaders_get_ne options o' k :
  checkHeaders options = Some o' -> k <> "headers" -> obj_get o' k = obj_get options k.
Proof.
  intros H Hk. unfold checkHeaders in H.
  destruct (obj_has options "headers"); [|injection H as <-; reflexivity].
  repeat match type of H with
         | context [if ?c then _ else _] => destruct c
         | context [match ?x with Some _ => _ | None => _ end] => destruct x
         | context [match ?x with JUndef => _ | _ => _ end] => destruct x
         end; try discriminate;
  injection H as <-; apply obj_get_set_ne; congruence.
Qed.

Lemma checkUrl_host_get options k :
  k <> "hostname" -> k <> "host" -> obj_get (checkUrl_host options) k = obj_get options k.
Proof.
  intros H1 H2. unfold checkUrl_host.
  destruct (truthy (obj_get options "host")); [|reflexivity].
  rewrite obj_get_delete_ne by congruence.
  destruct (negb (truthy (obj_get options "hostname"))); [|reflexivity].
  apply obj_get_set_ne. congruence.
Qed.

Lemma checkUrl_normalized urlParse options o1 :
  checkUrl urlParse options = Some o1 ->
  truthy (obj_get o1 "hostname") = true /\ truthy (obj_get o1 "host") = false.
Proof.
  unfold checkUrl. intros H.
  destruct (truthy (obj_get (checkUrl_host (checkUrl_url urlParse options)) "hostname")) eqn:Hh;
    [|discriminate].
  injection H as <-. split; [exact Hh|].
  unfold checkUrl_host.
  destruct (truthy (obj_get (checkUrl_url urlParse options) "host")) eqn:E; [|exact E].
  rewrite obj_get_delete_eq. reflexivity.
Qed.

(** A string body gets [text/html] when it starts with [<] and
    [text/plain] otherwise, with the matching Accept header, when the
    [headers] field has neither header. *)
Theorem checkHeaders_string_body (options : jsobj) (s : string) :
  obj_has options "headers" = true ->
  truthy (hdr_get (hdrs_of (obj_get options "headers")) "Content-Type") = false ->
  truthy (hdr_get (hdrs_of (obj_get options "headers")) "Accept") = false ->
  obj_get options "body" = JStr s ->
  exists o', checkHeaders options = Some o' /\
    hdr_get (hdrs_of (obj_get o' "headers")) "Content-Type"
      = JStr (if bool_decide (String.get 0 s = Some "<"%char)
              then "text/html; charset=utf-8" else "text/plain; charset=utf-8") /\
    hdr_get (hdrs_of (obj_get o' "headers")) "Accept"
      = JStr (if bool_decide (String.get 0 s = Some "<"%char)
              then "text/html" else "text/plain").
Proof.
  intros Hh Hct Hacc Hb.
  assert (Hbody : obj_has options "body" = true) by (apply obj_get_has; congruence).
  unfold checkHeaders. rewrite Hh, Hct, Hbody, Hb. simpl.
  set (ct := if bool_decide (String.get 0 s = Some "<"%char)
             then "text/html; charset=utf-8" else "text/plain; charset=utf-8").
  set (h0 := hdrs_of (obj_get options "headers")).
  fold h0 in Hacc.
  rewrite hdr_get_set_ne by exact lower_ct_accept. rewrite Hacc, hdr_get_set_eq.
  assert (Htr : truthy (JStr ct) = true)
    by (subst ct; destruct (bool_decide _); reflexivity).
  rewrite Htr. eexists. split; [reflexivity|].
  rewrite obj_get_set_eq. simpl. split.
  - rewrite hdr_get_set_ne by (intro E; apply lower_ct_accept; symmetry; exact E).
    apply hdr_get_set_eq.
  - rewrite hdr_get_set_eq. subst ct. destruct (bool_decide _); reflexivity.
Qed.

(** A witness of [checkHeaders_string_body] on an HTML body. *)
Lemma checkHeaders_string_body_witness :
  exists o', checkHeaders [("headers", JObj []); ("body", JStr "<p>")] = Some o' /\
    hdr_get (hdrs_of (obj_get o' "headers")) "Content-Type"
      = JStr (if bool_decide (String.get 0 "<p>" = Some "<"%char)
              then "text/html; charset=utf-8" else "text/plain; charset=utf-8") /\
    hdr_get (hdrs_of (obj_get o' "headers")) "Accept"
      = JStr (if bool_decide (String.get 0 "<p>" = Some "<"%char)
              then "text/html" else "text/plain").
Proof. apply checkHeaders_string_body; reflexivity. Defined.

(** An explicit string Content-Type is kept, and a missing Accept header
    becomes its media type (the text before the first [;]). *)
Theorem checkHeaders_accept_from_content_type (options : jsobj) (ct : string) :
  obj_has options "headers" = true ->
  hdr_get (hdrs_of (obj_get options "headers")) "Content-Type" = JStr ct ->
  ct <> "" ->
  truthy (hdr_get (hdrs_of (obj_get options "headers")) "Accept") = false ->
  exists o', checkHeaders options = Some o' /\
    hdr_get (hdrs_of (obj_get o' "headers")) "Content-Type" = JStr ct /\
    hdr_get (hdrs_of (obj_get o' "headers")) "Accept" = JStr (before_semicolon ct).
Proof.
  intros Hh Hct Hne Hacc.
  assert (Ht : truthy (JStr ct) = true)
    by (simpl; apply negb_true_iff, String.eqb_neq, Hne).
  unfold checkHeaders. rewrite Hh, Hct, Ht. simpl. rewrite Hacc. simpl.
  rewrite Hct, Ht. eexists. split; [reflexivity|].
  rewrite obj_get_set_eq. simpl. split.
  - rewrite hdr_get_set_ne by (intro E; apply lower_ct_accept; symmetry; exact E).
    exact Hct.
  - apply hdr_get_set_eq.
Qed.

(** A witness of [checkHeaders_accept_from_content_type]. *)
Lemma checkHeaders_accept_from_content_type_witness :
  exists o', checkHeaders [("headers", JObj [("content-type", JStr "text/xml; charset=utf-8")])]
             = Some o' /\
    hdr_get (hdrs_of (obj_get o' "headers")) "Content-Type" = JStr "text/xml; charset=utf-8" /\
    hdr_get (hdrs_of (obj_get o' "headers")) "Accept"
      = JStr (before_semicolon "text/xml; charset=utf-8").
Proof. apply checkHeaders_accept_from_content_type; try reflexivity; discriminate. Defined.



(** Options handed to a delivery adapter have a truthy [hostname], no
    truthy [host], and no [requestType] property. *)
Theorem jfHttpRequest_dispatch_normalized (urlParse : string -> jsobj) (v : jsval)
    (d : delivery) (o : jsobj) :
  jfHttpRequest urlParse v = Dispatch d o ->
  truthy (obj_get o "hostname") = true /\ truthy (obj_get o "host") = false /\
  obj_has o "requestType" = false.
Proof.
  unfold jfHttpRequest. intros H.
  destruct (truthy v); [|discriminate].
  destruct (checkUrl urlParse (options_of v)) as [o1|] eqn:E1; [|discriminate].
  destruct (checkHeaders o1) as [o2|] eqn:E2; [|discriminate].
  assert (Ho : o = obj_delete o2 "requestType").
  { destruct (String.eqb (typeof (obj_get o2 "requestType")) "function");
      [destruct (isPromise (obj_get o2 "requestType"))|]; injection H as _ <-; reflexivity. }
  subst o. destruct (checkUrl_normalized _ _ _ E1) as [Hh Hhost].
  rewrite !obj_get_delete_ne by discriminate.
  rewrite !(checkHeaders_get_ne o1 o2) by (assumption || discriminate).
  split; [exact Hh|split; [exact Hhost|apply obj_has_delete_eq]].
Qed.

(** A witness of [jfHttpRequest_dispatch_normalized]. *)
Lemma jfHttpRequest_dispatch_normalized_witness :
  truthy (obj_get [("hostname", JStr "h")] "hostname") = true /\
  truthy (obj_get [("hostname", JStr "h")] "host") = false /\
  obj_has [("hostname", JStr "h")] "requestType" = false.
Proof.
  apply (jfHttpRequest_dispatch_normalized (fun _ => [])
           (JObj [("host", JStr "h"); ("requestType", JStr "events")]) typeEvents).
  reflexivity.
Defined.

Lemma checkUrl_url_get_other urlParse options k :
  (forall s, obj_has (urlParse s) k = false) ->
  k <> "url" -> k <> "pathname" -> k <> "path" ->
  obj_get (checkUrl_url urlParse options) k = obj_get options k.
Proof.
  intros Hp Hu Hpn Hpa. unfold checkUrl_url.
  destruct (obj_get options "url") as [| | | | s | |]; try reflexivity.
  destruct (truthy (obj_get options "pathname"));
    [|destruct (truthy (obj_get (urlParse s) "query"))]; cbv beta iota zeta;
    rewrite obj_get_delete_ne by congruence;
    rewrite obj_get_assign_notin;
    try (rewrite obj_has_set; apply orb_false_iff; split;
         [apply String.eqb_neq; congruence | apply Hp]);
    try apply Hp; try reflexivity.
  apply obj_get_delete_ne. congruence.
Qed.

(** Without a [url] option, a falsy [hostname] is taken from [host],
    [host] is removed and every other option is kept; when both are
    falsy the options are rejected ([Wrong hostname]). *)
Theorem checkUrl_host_alias (urlParse : string -> jsobj) (options : jsobj) :
  (forall s, obj_get options "url" <> JStr s) ->
  truthy (obj_get options "hostname") = false ->
  (truthy (obj_get options "host") = true ->
   exists o1, checkUrl urlParse options = Some o1 /\
     obj_get o1 "hostname" = obj_get options "host" /\ obj_has o1 "host" = false /\
     (forall k, k <> "hostname" -> k <> "host" -> obj_get o1 k = obj_get options k)) /\
  (truthy (obj_get options "host") = false -> checkUrl urlParse options = None).
Proof.
  intros Hu Hhn.
  assert (Hurl : checkUrl_url urlParse options = options).
  { unfold checkUrl_url. destruct (obj_get options "url"); try reflexivity.
    exfalso. eapply Hu. reflexivity. }
  unfold checkUrl. rewrite Hurl. split.
  - intros Hh.
    assert (Hc : checkUrl_host options
                 = obj_delete (obj_set options "hostname" (obj_get options "host")) "host")
      by (unfold checkUrl_host; rewrite Hh, Hhn; reflexivity).
    cbv zeta. rewrite Hc.
    rewrite obj_get_delete_ne, obj_get_set_eq, Hh by discriminate.
    eexists. split; [reflexivity|]. split; [|split].
    + rewrite obj_get_delete_ne, obj_get_set_eq by discriminate. reflexivity.
    + apply obj_has_delete_eq.
    + intros k H1 H2. rewrite <- Hc. apply checkUrl_host_get; assumption.
  - intros Hh.
    assert (Hc : checkUrl_host options = options)
      by (unfold checkUrl_host; rewrite Hh; reflexivity).
    cbv zeta. rewrite Hc, Hhn. reflexivity.
Qed.

(** A witness of [checkUrl_host_alias]. *)
Lemma checkUrl_host_alias_witness :
  (truthy (obj_get [("host", JStr "example.org"); ("port", JNum 80)] "host") = true ->
   exists o1, checkUrl (fun _ => []) [("host", JStr "example.org"); ("port", JNum 80)] = Some o1 /\
     obj_get o1 "hostname" = obj_get [("host", JStr "example.org"); ("port", JNum 80)] "host" /\
     obj_has o1 "host" = false /\
     (forall k, k <> "hostname" -> k <> "host" ->
        obj_get o1 k = obj_get [("host", JStr "example.org"); ("port", JNum 80)] k)) /\
  (truthy (obj_get [("host", JStr "example.org"); ("port", JNum 80)] "host") = false ->
   checkUrl (fun _ => []) [("host", JStr "example.org"); ("port", JNum 80)] = None).
Proof. apply checkUrl_host_alias; [discriminate | reflexivity]. Defined.

(** The delivery mode follows the caller's [requestType]: a promise class
    gives promises, another function gives a callback, anything else
    gives events (when the URL parser itself yields no [requestType]). *)
Theorem jfHttpRequest_mode (urlParse : string -> jsobj) (options : jsobj)
    (d : delivery) (o : jsobj) :
  (forall s, obj_has (urlParse s) "requestType" = false) ->
  jfHttpRequest urlParse (JObj options) = Dispatch d o ->
  d = (let rt := obj_get options "requestType" in
       if String.eqb (typeof rt) "function" then
         if isPromise rt then typePromise rt else typeCallback rt
       else typeEvents).
Proof.
  intros Hp H. unfold jfHttpRequest in H. simpl in H.
  destruct (checkUrl urlParse options) as [o1|] eqn:E1; [|discriminate].
  destruct (checkHeaders o1) as [o2|] eqn:E2; [|discriminate].
  assert (Hrt : obj_get o2 "requestType" = obj_get options "requestType").
  { rewrite (checkHeaders_get_ne o1 o2) by (assumption || discriminate).
    unfold checkUrl in E1.
    destruct (truthy _); [|discriminate]. injection E1 as <-.
    rewrite checkUrl_host_get by discriminate.
    apply checkUrl_url_get_other; [exact Hp | discriminate..]. }
  rewrite Hrt in H. simpl.
  destruct (String.eqb (typeof (obj_get options "requestType")) "function");
    [destruct (isPromise (obj_get options "requestType"))|]; injection H as <- _; reflexivity.
Qed.

(** A witness of [jfHttpRequest_mode] with a plain callback. *)
Lemma jfHttpRequest_mode_witness :
  typeCallback (JFun None)
  = (let rt := obj_get [("hostname", JStr "h"); ("requestType", JFun None)] "requestType" in
     if String.eqb (typeof rt) "function" then
       if isPromise rt then typePromise rt else typeCallback rt
     else typeEvents).
Proof.
  apply (jfHttpRequest_mode (fun _ => []) _ _ [("hostname", JStr "h")]);
    [intros; reflexivity | reflexivity].
Defined.

End ExtraNormalizer.

Module ExtraCache.
Import Cache CacheProofs.

Lemma lookup_view_eq n h st :
  lookup_view n h st =
  match cache st !! h with
  | Some e => if decide (time e < n) then None
              else Some (copy_properties (default ∅ (heap st !! data e)) ∅)
  | None => None
  end.
Proof.
  unfold lookup_view, fromCache. rewrite lookup_purge.
  destruct (cache st !! h) as [e|]; [|reflexivity].
  case_decide; [reflexivity|]. cbn. apply lookup_insert_eq.
Qed.

Lemma fromCache_state now h st :
  cache (fst (fromCache now h st)) = cache (purgeCache now st) /\
  (forall l, (l < next st)%positive -> heap (fst (fromCache now h st)) !! l = heap st !! l) /\
  (next st <= next (fst (fromCache now h st)))%positive.
Proof.
  unfold fromCache. destruct (cache (purgeCache now st) !! h) as [e|]; cbn.
  - split; [reflexivity|]. split; [|lia]. intros l Hl. apply lookup_insert_ne. lia.
  - split; [reflexivity|]. split; [reflexivity|lia].
Qed.

(** A lookup finds [hash] exactly when its entry expires at or after the
    current clock reading (an entry is still served at its expiry
    instant), and it purges every expired entry of the table, whatever
    its key. *)
Theorem fromCache_expiry (now : Z) (h : string) (st : state) :
  (is_Some (snd (fromCache now h st)) <->
   exists e, cache st !! h = Some e /\ now <= time e) /\
  (forall k e, cache (fst (fromCache now h st)) !! k = Some e <->
               cache st !! k = Some e /\ now <= time e).
Proof.
  split.
  - unfold fromCache. rewrite lookup_purge.
    destruct (cache st !! h) as [e|] eqn:He.
    + case_decide as Ht; cbn.
      * split; [intros [? Hx]; discriminate|]. intros [e' [[= <-] Hle]]. lia.
      * split; [intros _; exists e; split; [reflexivity|lia] | intros _; eexists; reflexivity].
    + cbn. split; [intros [? Hx]; discriminate | intros [e' [Hx _]]; discriminate].
  - intros k e. rewrite (proj1 (fromCache_state now h st)), lookup_purge.
    destruct (cache st !! k) as [e'|].
    + case_decide; split.
      * discriminate.
      * intros [[= ->] Hle]. lia.
      * intros [= ->]. split; [reflexivity|lia].
      * intros [[= ->] _]. reflexivity.
    + split; [discriminate | intros [Hx _]; discriminate].
Qed.

(** Storing a second response under a hash replaces the first: later
    lookups see exactly what they would see had only the second response
    been stored (for a response object allocated before both stores). *)
Theorem addToCache_replace (st : state) (h : string) (n0 n1 n2 t1 t2 : Z) (r1 r2 : positive) :
  wf st -> is_Some (heap st !! r2) ->
  lookup_view n2 h (addToCache n1 h t2 r2 (addToCache n0 h t1 r1 st))
  = lookup_view n2 h (addToCache n1 h t2 r2 st).
Proof.
  intros Hwf Hr2.
  assert (Hlt : (r2 < next st)%positive) by (apply Hwf, Hr2).
  rewrite !lookup_view_eq, !addToCache_cache. cbn [data time].
  case_decide; [reflexivity|]. f_equal.
  rewrite !addToCache_heap, !lookup_insert_eq. cbn [default].
  rewrite ?addToCache_heap. rewrite lookup_insert_ne by lia. reflexivity.
Qed.

(** A witness of [addToCache_replace]: a 200 response stored over a 500
    one. *)
Lemma addToCache_replace_witness :
  let st := {| heap := <[1%positive := {["statusCode" := VNum 500]}]>
                         {[2%positive := {["statusCode" := VNum 200]}]};
               cache := ∅; next := 3 |} in
  lookup_view 5 "h" (addToCache 2 "h" 10 2 (addToCache 0 "h" 10 1 st))
  = lookup_view 5 "h" (addToCache 2 "h" 10 2 st).
Proof.
  intros st. apply addToCache_replace.
  - intros l [x Hx]. destruct (decide (l = 1%positive)) as [->|H1]; [simpl; lia|].
    destruct (decide (l = 2%positive)) as [->|H2]; [simpl; lia|].
    exfalso. simpl in Hx. rewrite lookup_insert_ne in Hx by congruence.
    rewrite lookup_singleton_ne in Hx by congruence. discriminate.
  - eexists. reflexivity.
Defined.

(** A lookup does not disturb later ones: after [fromCache(hash)] at
    clock [n], a lookup of any key at a clock [n' >= n] sees the same
    contents as it would have without the first lookup. *)
Theorem fromCache_no_interference (st : state) (n n' : Z) (h h' : string) :
  wf st -> cache_wf st -> n <= n' ->
  lookup_view n' h' (fst (fromCache n h st)) = lookup_view n' h' st.
Proof.
  intros Hwf Hcwf Hle.
  destruct (fromCache_state n h st) as [Hc [Hh _]].
  rewrite !lookup_view_eq, Hc, lookup_purge.
  destruct (cache st !! h') as [e|] eqn:He; [|reflexivity].
  case_decide; [case_decide; [reflexivity | lia]|].
  case_decide; [reflexivity|]. rewrite Hh; [reflexivity|].
  apply Hwf, (Hcwf h'), He.
Qed.

(** A witness of [fromCache_no_interference]: two lookups of a stored
    response. *)
Lemma fromCache_no_interference_witness :
  let st := {| heap := {[1%positive := {["statusCode" := VNum 200]}]};
               cache := {["h" := {| data := 1; time := 10 |}]}; next := 2 |} in
  lookup_view 6 "h" (fst (fromCache 5 "h" st)) = lookup_view 6 "h" st.
Proof.
  intros st. apply fromCache_no_interference.
  - intros l [x Hx]. destruct (decide (l = 1%positive)) as [->|H1]; [simpl; lia|].
    exfalso. simpl in Hx. rewrite lookup_singleton_ne in Hx by congruence. discriminate.
  - intros k e He. simpl in He. destruct (decide (k = "h")) as [->|Hk].
    + rewrite lookup_singleton_eq in He. injection He as <-. simpl. eexists. reflexivity.
    + rewrite lookup_singleton_ne in He by congruence. discriminate.
  - lia.
Defined.

End ExtraCache.

Module ExtraExecutor.
Import Js Cache CacheProofs Executor ExecutorProofs ExtraCache.

Lemma alloc_json_cache j st : cache (fst (alloc_json j st)) = cache st.
Proof.
  revert j st. fix IH 1. intros j st.
  destruct j as [| | b | n | s | proto | props]; simpl; try reflexivity.
  assert (Hgo : forall ps st0 o0,
    cache (fst ((fix go (ps : list (string * jsval)) (st : state) (o : obj)
                   : state * obj :=
                  match ps with
                  | [] => (st, o)
                  | (k, x) :: ps' =>
                      let '(st1, vx) := alloc_json x st in go ps' st1 (<[k := vx]> o)
                  end) ps st0 o0)) = cache st0).
  { fix IHgo 1. intros [|[k x] ps] st0 o0; simpl; [reflexivity|].
    pose proof (IH x st0) as Hx. destruct (alloc_json x st0) as [st1 vx].
    rewrite IHgo. exact Hx. }
  specialize (Hgo props st ∅).
  destruct ((fix go (ps : list (string * jsval)) (st : state) (o : obj) : state * obj :=
              match ps with
              | [] => (st, o)
              | (k, x) :: ps' =>
                  let '(st1, vx) := alloc_json x st in go ps' st1 (<[k := vx]> o)
              end) props st ∅) as [st1 o1].
  exact Hgo.
Qed.

Lemma onEnd_shape json_parse now hash ct r chunks st :
  exists sa body, extends st sa /\ cache sa = cache st /\
    (json_type_test (val_to_string (header_get st (read st r "headers") "Content-Type"))
       = false -> body = VBuf (String.concat "" chunks)) /\
    onEnd json_parse now hash ct r chunks st
      = (match hash with
         | Some h => addToCache now h (time_number ct) r (write r "body" body sa)
         | None => write r "body" body sa
         end, call_ok r).
Proof.
  unfold onEnd.
  destruct (json_type_test _) eqn:J.
  - destruct (json_parse (String.concat "" chunks)) as [j|];
      [pose proof (extends_alloc_json j st) as Hx; pose proof (alloc_json_cache j st) as Hc;
       destruct (alloc_json j st) as [sa b]
      |pose proof (extends_alloc_json (JObj []) st) as Hx;
       pose proof (alloc_json_cache (JObj []) st) as Hc;
       destruct (alloc_json (JObj []) st) as [sa b]];
      exists sa, b; (split; [exact Hx|split; [exact Hc|split; [discriminate|reflexivity]]]).
  - exists st, (VBuf (String.concat "" chunks)).
    split; [apply extends_refl|split; [reflexivity|split; [reflexivity|reflexivity]]].
Qed.

Lemma read_write_eq l k v st o :
  heap st !! l = Some o -> read (write l k v st) l k = v.
Proof.
  intros Hl. unfold read, write. simpl. rewrite lookup_alter_eq, Hl. simpl.
  unfold get. rewrite lookup_insert_eq. reflexivity.
Qed.

(** When the response's Content-Type is not JSON, the body attached to
    the response is the buffer of its chunks, undecoded, and [ok] is
    called with the response. *)
Theorem onEnd_raw_body (json_parse : string -> option jsval) (now : Z)
    (hash : option string) (cacheTime : jsval) (response : positive)
    (chunks : list string) (st : state) (o : obj) :
  wf st -> heap st !! response = Some o ->
  json_type_test (val_to_string (header_get st (read st response "headers") "Content-Type"))
    = false ->
  exists st', onEnd json_parse now hash cacheTime response chunks st = (st', call_ok response) /\
    read st' response "body" = VBuf (String.concat "" chunks).
Proof.
  intros Hwf Ho Hj.
  destruct (onEnd_shape json_parse now hash cacheTime response chunks st)
    as [sa [body [[Hn [Hh _]] [_ [Hb ->]]]]].
  rewrite (Hb Hj). eexists. split; [reflexivity|].
  assert (Hlt : (response < next st)%positive) by (apply Hwf; rewrite Ho; eexists; reflexivity).
  assert (Hsa : heap sa !! response = Some o) by (rewrite Hh by exact Hlt; exact Ho).
  destruct hash as [h|].
  - unfold read at 1. rewrite addToCache_heap, lookup_insert_ne by (simpl; lia).
    apply (read_write_eq _ _ _ _ _ Hsa).
  - apply (read_write_eq _ _ _ _ _ Hsa).
Qed.

(** A witness of [onEnd_raw_body] on a [text/plain] response. *)
Lemma onEnd_raw_body_witness :
  let st := {| heap := <[1%positive := {["headers" := VRef 2]}]>
                         {[2%positive := {["Content-Type" := VStr "text/plain"]}]};
               cache := ∅; next := 3 |} in
  exists st', onEnd (fun _ => None) 0 None (JNum 0) 1 ["a"; "b"] st = (st', call_ok 1) /\
    read st' 1 "body" = VBuf (String.concat "" ["a"; "b"]).
Proof.
  intros st. apply (onEnd_raw_body _ _ _ _ _ _ _ {["headers" := VRef 2]}).
  - intros l [x Hx]. destruct (decide (l = 1%positive)) as [->|H1]; [simpl; lia|].
    destruct (decide (l = 2%positive)) as [->|H2]; [simpl; lia|].
    exfalso. simpl in Hx. rewrite lookup_insert_ne in Hx by congruence.
    rewrite lookup_singleton_ne in Hx by congruence. discriminate.
  - reflexivity.
  - vm_compute. reflexivity.
Defined.

End ExtraExecutor.

Module ExtraFlow.
Import Js Cache CacheProofs Executor ExecutorProofs ExtraExecutor Delivery.

Lemma json_at_spec s :
  json_at s = true <->
  exists r, s = ("json" ++ r)%string /\ (r = EmptyString \/ exists r', r = String ";" r').
Proof.
  unfold json_at. split.
  - destruct s as [|a [|b [|c [|d r]]]]; cbn -[ascii_dec];
      repeat match goal with |- context [ascii_dec ?x ?y] => destruct (ascii_dec x y) end;
      subst; cbn -[ascii_dec]; try (intros H; discriminate H).
    intros H. exists r. split; [reflexivity|].
    destruct r as [|e r]; [left; reflexivity|right].
    apply Ascii.eqb_eq in H. subst e. exists r. reflexivity.
  - intros [r [-> Hr]]. simpl.
    destruct Hr as [->|[r' ->]]; reflexivity.
Qed.

(** [(/[+/]json(;|$)/).test(s)] holds exactly when [s] contains [+json]
    or [/json] followed by the end of [s] or by [;]. *)
Theorem json_type_test_spec (s : string) :
  json_type_test s = true <->
  exists p c r, s = (p ++ String c ("json" ++ r))%string /\
    (c = "+"%char \/ c = "/"%char) /\ (r = EmptyString \/ exists r', r = String ";" r').
Proof.
  induction s as [|c0 s IH]; simpl.
  - split; [discriminate|]. intros [p [c [r [H _]]]]. destruct p; discriminate.
  - rewrite orb_true_iff, andb_true_iff, orb_true_iff, !Ascii.eqb_eq, json_at_spec, IH.
    split.
    + intros [[Hc [r [-> Hr]]] | [p [c [r [-> Hr]]]]].
      * exists EmptyString, c0, r. split; [reflexivity|]. split; [exact Hc|exact Hr].
      * exists (String c0 p), c, r. split; [reflexivity|exact Hr].
    + intros [p [c [r [Hs [Hc Hr]]]]]. destruct p as [|c1 p]; simpl in Hs; injection Hs as -> ->.
      * left. split; [exact Hc|]. exists r. split; [reflexivity|exact Hr].
      * right. exists p, c, r. split; [reflexivity|]. split; assumption.
Qed.



Lemma Qle_bool_200_Z n : Qle_bool 200 (inject_Z n) = (200 <=? n).
Proof. unfold Qle_bool. simpl. rewrite !Z.mul_1_r. reflexivity. Qed.

Lemma Qle_bool_300_Z n : Qle_bool 300 (inject_Z n) = (300 <=? n).
Proof. unfold Qle_bool. simpl. rewrite !Z.mul_1_r. reflexivity. Qed.

Lemma isOk_at_num to_number st r n :
  read st r "statusCode" = VNum n ->
  isOk_at to_number st r = true <-> (200 <= n < 300 \/ n = 304).
Proof.
  intros Hn. unfold isOk_at. rewrite Hn. simpl val_truthy.
  destruct (Z.eqb_spec n 0) as [->|Hz]; simpl.
  - split; [discriminate | lia].
  - rewrite Qle_bool_200_Z, Qle_bool_300_Z, orb_true_iff, andb_true_iff,
      negb_true_iff, Z.leb_le, Z.leb_gt, Z.eqb_eq. lia.
Qed.

Lemma isOk_at_str to_number st r s :
  read st r "statusCode" = VStr s ->
  isOk_at to_number st r = true <->
  (s <> ""%string /\ exists x, to_number s = Some x /\ (200 <= x)%Q /\ (x < 300)%Q).
Proof.
  intros Hs. unfold isOk_at. rewrite Hs. simpl val_truthy.
  destruct (String.eqb_spec s "") as [->|Hne]; simpl.
  - split; [discriminate | intros [H _]; congruence].
  - rewrite orb_false_r. destruct (to_number s) as [x|].
    + rewrite andb_true_iff, negb_true_iff, Qle_bool_iff. split.
      * intros [H1 H2]. split; [exact Hne|]. exists x. split; [reflexivity|]. split; [exact H1|].
        apply Qnot_le_lt. intros H. apply Qle_bool_iff in H. congruence.
      * intros [_ [y [[= <-] [H1 H2]]]]. split; [exact H1|].
        destruct (Qle_bool 300 x) eqn:E; [|reflexivity].
        apply Qle_bool_iff in E. exfalso. apply (Qlt_not_le _ _ H2 E).
    + split; [discriminate | intros [_ [y [Hy _]]]; discriminate].
Qed.

Lemma isOk_at_undef to_number st r :
  read st r "statusCode" = VUndef -> isOk_at to_number st r = false.
Proof. intros H. unfold isOk_at. rewrite H. reflexivity. Qed.

(** In callback and event modes a transport error is labelled
    [request-error] and a response is labelled [request-ok] or
    [request-fail]: a numeric [statusCode] gives [request-ok] exactly when
    it lies in [200..299] or is [304]; a string [statusCode] (say one
    loaded from a cache file) is compared after [ToNumber], so it gives
    [request-ok] exactly when it is non-empty and its number lies in
    [200, 300) (the string ['304'] fails [=== 304]); a missing
    [statusCode] gives [request-fail]. *)
Theorem deliver_labels (to_number : string -> option Q) (d : Normalizer.delivery) (st : state) :
  (d = Normalizer.typeEvents \/ exists cb, d = Normalizer.typeCallback cb) ->
  (forall e, label_of (deliver to_number d st (call_error e)) = Some request_error) /\
  (forall r, label_of (deliver to_number d st (call_ok r)) = Some request_ok \/
             label_of (deliver to_number d st (call_ok r)) = Some request_fail) /\
  (forall r n, read st r "statusCode" = VNum n ->
     label_of (deliver to_number d st (call_ok r)) = Some request_ok <->
     (200 <= n < 300 \/ n = 304)) /\
  (forall r s, read st r "statusCode" = VStr s ->
     label_of (deliver to_number d st (call_ok r)) = Some request_ok <->
     (s <> ""%string /\ exists x, to_number s = Some x /\ (200 <= x)%Q /\ (x < 300)%Q)) /\
  (forall r, read st r "statusCode" = VUndef ->
     label_of (deliver to_number d st (call_ok r)) = Some request_fail).
Proof.
  intros Hd.
  assert (Hl : forall r, label_of (deliver to_number d st (call_ok r))
                         = Some (if isOk_at to_number st r then request_ok else request_fail))
    by (intros r; destruct Hd as [->|[cb ->]]; reflexivity).
  assert (Hok : forall r, label_of (deliver to_number d st (call_ok r)) = Some request_ok <->
                          isOk_at to_number st r = true)
    by (intros r; rewrite Hl; destruct (isOk_at to_number st r); split; congruence).
  split; [|split; [|split; [|split]]].
  - intros e. destruct Hd as [->|[cb ->]]; reflexivity.
  - intros r. rewrite Hl. destruct (isOk_at to_number st r); [left|right]; reflexivity.
  - intros r n Hn. rewrite Hok. apply isOk_at_num, Hn.
  - intros r s Hs. rewrite Hok. apply isOk_at_str, Hs.
  - intros r Hu. rewrite Hl, isOk_at_undef by exact Hu. reflexivity.
Qed.

(** A witness of [deliver_labels] in event mode. *)
Lemma deliver_labels_witness :
  let st := {| heap := {[1%positive := {["statusCode" := VNum 404]}]}; cache := ∅; next := 2 |} in
  let tn := fun _ : string => Some 200%Q in
  (forall e, label_of (deliver tn Normalizer.typeEvents st (call_error e)) = Some request_error) /\
  (forall r, label_of (deliver tn Normalizer.typeEvents st (call_ok r)) = Some request_ok \/
             label_of (deliver tn Normalizer.typeEvents st (call_ok r)) = Some request_fail) /\
  (forall r n, read st r "statusCode" = VNum n ->
     label_of (deliver tn Normalizer.typeEvents st (call_ok r)) = Some request_ok <->
     (200 <= n < 300 \/ n = 304)) /\
  (forall r s, read st r "statusCode" = VStr s ->
     label_of (deliver tn Normalizer.typeEvents st (call_ok r)) = Some request_ok <->
     (s <> ""%string /\ exists x, tn s = Some x /\ (200 <= x)%Q /\ (x < 300)%Q)) /\
  (forall r, read st r "statusCode" = VUndef ->
     label_of (deliver tn Normalizer.typeEvents st (call_ok r)) = Some request_fail).
Proof. intros st tn. apply deliver_labels. left. reflexivity. Defined.

End ExtraFlow.
